(** * Bibliography manager of the panmirror editor

    A shallow embedding of
    [src/gwt/panmirror/src/editor/src/api/bibliography/bibliography.ts]:
    the record types of the file, the [BibliographyManager] class with its
    three mutable fields threaded as an explicit state, and the properties of
    loading, visibility, writability and search that follow from the code.

    Conventions of the embedding.
    - A TypeScript [string] is a [string]; an optional value
      ([string | undefined], a [?] parameter or field) is an [option].
    - JavaScript truthiness is written out: [truthy] for optional strings
      (absent and the empty string are falsy), [truthy_object] for objects
      (always truthy).
    - [===] between strings is [String.eqb].
    - A [Promise] is the way it settles: [Resolved] with a value or
      [Rejected] with a reason.
    - The third-party fuzzy matcher (fuse.js) is a parameter of the search
      functions; the properties that depend on what it returns are proved
      from its contract, which a reference pipeline below satisfies. *)

From Stdlib Require Import List String Bool Arith Lia QArith Sorted DecimalString.
Import ListNotations.

Local Open Scope nat_scope.
Local Open Scope string_scope.

(** ** JavaScript values *)

Inductive Promise (A : Type) : Type :=
| Resolved (value : A)
| Rejected (reason : string).

Arguments Resolved {A} value.
Arguments Rejected {A} reason.

(** [Promise.all]: resolves with every value in order, or rejects with the
    reason of a rejected member. *)
Fixpoint Promise_all {A : Type} (ps : list (Promise A)) : Promise (list A) :=
  match ps with
  | [] => Resolved []
  | Resolved v :: rest =>
      match Promise_all rest with
      | Resolved vs => Resolved (v :: vs)
      | Rejected e => Rejected e
      end
  | Rejected e :: _ => Rejected e
  end.

(** Truthiness of [string | undefined]. *)
Definition truthy (s : option string) : bool :=
  match s with
  | Some s => negb (s =? "")
  | None => false
  end.

(** The string held by an optional string, read where it is known truthy. *)
Definition the_string (s : option string) : string :=
  match s with
  | Some s => s
  | None => ""
  end.

(** Truthiness of an object reference (an array, a promise): always true. *)
Definition truthy_object {A : Type} (_ : A) : bool := true.

(** [a === b] where [a] may be undefined and [b] is a string. *)
Definition strict_eq_opt (a : option string) (b : string) : bool :=
  match a with
  | Some a => a =? b
  | None => false
  end.

(** [xs.reduce((prev, curr) => prev || curr)] with no initial value: the
    first element seeds the fold, and an empty array raises a TypeError
    ([None]). *)
Definition reduce_or (xs : list bool) : option bool :=
  match xs with
  | [] => None
  | x :: rest => Some (fold_left (fun prev curr => prev || curr) rest x)
  end.

(** [xs.includes(x)] on an array of strings. *)
Definition includes (xs : list string) (x : string) : bool :=
  existsb (fun y => y =? x) xs.

(** ** Record types of bibliography.ts *)

Module CSLName.
Record t : Type := {
  family : option string;
  given : option string;
  literal : option string
}.
End CSLName.

Module CSL.
(** Modelled from the spec: the [CSL] interface is declared in [../csl],
    outside bibliography.ts.  The spec describes it as the normalized
    citation fields (title, authors, issue date and other CSL-style fields);
    the fields kept are the ones bibliography.ts names ([DOI], and the
    indexed [title], [author], [issued]). *)
Record t : Type := {
  title : option string;
  author : list CSLName.t;
  issued : option string;
  DOI : option string
}.
End CSL.

Module BibliographyFile.
Record t : Type := {
  displayPath : string;
  fullPath : string;
  isProject : bool;
  writable : bool
}.
End BibliographyFile.

Module BibliographyCollection.
Record t : Type := {
  name : string;
  key : string;
  provider : string;
  parentKey : option string
}.
End BibliographyCollection.

(** [BibliographySourceWithCollections]: a [CSL] record extended with [id],
    [providerKey] and [collectionKeys].  The field [provider] is the property
    of that name as JavaScript reads it off the object ([item.provider] in
    [searchAllSources], the key ['provider'] of [kFields]): the interface
    does not declare it, so it is [None] on every object that carries the
    declared properties only. *)
Record BibliographySourceWithCollections : Type := {
  id : string;
  providerKey : string;
  collectionKeys : list string;
  provider : option string;
  csl : CSL.t
}.

Module BibliographyDataProvider.
(** A provider as the manager observes it during one call: what its [load]
    settles to, and what its readers return afterwards.  The document and UI
    arguments are opaque to the manager and fixed within a call. *)
Record t : Type := {
  key : string;
  name : string;
  isEnabled : bool;
  load : Promise bool;
  collections : list BibliographyCollection.t;
  items : list BibliographySourceWithCollections;
  itemsForCollection : string -> list BibliographySourceWithCollections;
  bibliographyPaths : list BibliographyFile.t;
  generateBibLaTeX : string -> CSL.t -> Promise (option string);
  warningMessage : option string
}.
End BibliographyDataProvider.

(** ** The fuse.js interface used by the manager *)

Module Fuse.

Record FuseOptionKeyObject : Type := {
  name : string;
  weight : Q
}.

(** Options given to the constructor by [updateIndex]: key names only. *)
Record IFuseOptions : Type := {
  keys : list string
}.

(** What [Fuse.createIndex(keys, docs)] is built from. *)
Record FuseIndex : Type := {
  index_keys : list string;
  index_docs : list BibliographySourceWithCollections
}.

Definition createIndex (keys : list string)
  (docs : list BibliographySourceWithCollections) : FuseIndex :=
  {| index_keys := keys; index_docs := docs |}.

(** A [Fuse] object: [new Fuse(docs, options, index)]. *)
Record t : Type := {
  docs : list BibliographySourceWithCollections;
  options : IFuseOptions;
  index : FuseIndex
}.

(** The options object [searchAllSources] passes to [fuse.search]. *)
Record SearchOptions : Type := {
  isCaseSensitive : bool;
  shouldSort : bool;
  includeMatches : bool;
  includeScore : bool;
  limit : nat;
  search_keys : list FuseOptionKeyObject
}.

Record FuseResult : Type := {
  item : BibliographySourceWithCollections;
  refIndex : nat
}.

End Fuse.

(** The fields and weights that are indexed and searched. *)
Definition kFields : list Fuse.FuseOptionKeyObject :=
  [ {| Fuse.name := "id"; Fuse.weight := 30 # 100 |};
    {| Fuse.name := "author.family"; Fuse.weight := 275 # 1000 |};
    {| Fuse.name := "author.literal"; Fuse.weight := 275 # 1000 |};
    {| Fuse.name := "title"; Fuse.weight := 1 # 10 |};
    {| Fuse.name := "author.given"; Fuse.weight := 25 # 1000 |};
    {| Fuse.name := "issued"; Fuse.weight := 25 # 1000 |};
    {| Fuse.name := "provider"; Fuse.weight := 0 |} ].

(** ** The manager *)

(** The mutable fields of a [BibliographyManager].  The [providers] field is
    assigned once by the constructor and holds objects whose answers change
    with the outside world; every operation that consults them takes them as
    an argument, as they answer during that call. *)
Record BibliographyManager : Type := {
  fuse : option Fuse.t;
  sources : option (list BibliographySourceWithCollections);
  writable : option bool
}.

(** The fields right after the constructor: none is assigned. *)
Definition constructed : BibliographyManager :=
  {| fuse := None; sources := None; writable := None |}.

Section Manager.

(** [kLocalBiliographyProviderKey] is imported from
    [./bibliography-provider_local] and [toBibLaTeX] from [./bibDB];
    [fuse_search] is [Fuse.prototype.search] of the fuse.js library.  The
    manager is defined for any value of the three. *)
Variable kLocalBiliographyProviderKey : string.
Variable toBibLaTeX : string -> CSL.t -> option string.
Variable fuse_search :
  Fuse.t -> string -> Fuse.SearchOptions -> list Fuse.FuseResult.

Definition isWritable (this : BibliographyManager) : bool :=
  match writable this with
  | Some w => w || false
  | None => false
  end.

Definition allSources (this : BibliographyManager)
  : list BibliographySourceWithCollections :=
  match sources this with
  | Some srcs =>
      if truthy_object srcs && isWritable this then srcs
      else
        filter (fun source => providerKey source =? kLocalBiliographyProviderKey)
          srcs
  | None => []
  end.

Definition hasSources (this : BibliographyManager) : bool :=
  (0 <? List.length (allSources this))%nat.

Definition sourcesForProvider (this : BibliographyManager) (providerKey' : string)
  : list BibliographySourceWithCollections :=
  filter (fun item => providerKey item =? providerKey') (allSources this).

Definition sourcesForProviderCollection (this : BibliographyManager)
  (provider' collectionKey : string)
  : list BibliographySourceWithCollections :=
  filter (fun item => includes (collectionKeys item) collectionKey)
    (sourcesForProvider this provider').

Definition localSources (this : BibliographyManager)
  : list BibliographySourceWithCollections :=
  filter (fun source => providerKey source =? kLocalBiliographyProviderKey)
    (allSources this).

Definition bibliographyFiles (providers : list BibliographyDataProvider.t)
  : list BibliographyFile.t :=
  List.concat (map BibliographyDataProvider.bibliographyPaths providers).

Definition shouldAllowWrites (providers : list BibliographyDataProvider.t)
  : bool :=
  let bibliographyFiles := bibliographyFiles providers in
  if (List.length bibliographyFiles =? 0)%nat then true
  else (0 <? List.length (filter BibliographyFile.writable bibliographyFiles))%nat.

Definition writableBibliographyFiles
  (providers : list BibliographyDataProvider.t) : list BibliographyFile.t :=
  filter BibliographyFile.writable (bibliographyFiles providers).

Definition updateIndex (this : BibliographyManager)
  (bibSources : list BibliographySourceWithCollections) : BibliographyManager :=
  let options := {| Fuse.keys := map Fuse.name kFields |} in
  let index := Fuse.createIndex (Fuse.keys options) bibSources in
  {| fuse := Some {| Fuse.docs := bibSources;
                     Fuse.options := options;
                     Fuse.index := index |};
     sources := sources this;
     writable := writable this |}.

(** [load]: the fields after the call, and how the returned promise settles.
    A rejected provider load rejects [Promise.all] before any field is
    written; [reduce] over no provider at all raises after [writable] has
    been written. *)
Definition load (providers : list BibliographyDataProvider.t)
  (this : BibliographyManager) : BibliographyManager * Promise unit :=
  match Promise_all (map BibliographyDataProvider.load providers) with
  | Rejected e => (this, Rejected e)
  | Resolved providersNeedUpdate =>
      let this1 :=
        {| fuse := fuse this;
           sources := sources this;
           writable := Some (shouldAllowWrites providers) |} in
      match reduce_or providersNeedUpdate with
      | None =>
          (this1, Rejected "TypeError: Reduce of empty array with no initial value")
      | Some needsIndexUpdate =>
          if needsIndexUpdate then
            let providersEntries :=
              map BibliographyDataProvider.items providers in
            let this2 :=
              {| fuse := fuse this1;
                 sources := Some (List.concat providersEntries);
                 writable := writable this1 |} in
            (updateIndex this2 (List.concat providersEntries), Resolved tt)
          else (this1, Resolved tt)
      end
  end.

Definition providerName (providers : list BibliographyDataProvider.t)
  (providerKey' : string) : option string :=
  option_map BibliographyDataProvider.name
    (find (fun prov => BibliographyDataProvider.key prov =? providerKey')
       providers).

(** [generateBibLaTeX]: the provider's promise is tested as an object, not
    awaited; an [async] function that returns a promise settles as that
    promise does. *)
Definition generateBibLaTeX (providers : list BibliographyDataProvider.t)
  (id' : string) (csl' : CSL.t) (provider' : option string)
  : Promise (option string) :=
  let dataProvider :=
    find (fun prov =>
            strict_eq_opt provider' (BibliographyDataProvider.key prov))
      providers in
  match dataProvider with
  | Some dataProvider =>
      let dataProviderBibLaTeX :=
        BibliographyDataProvider.generateBibLaTeX dataProvider id' csl' in
      if truthy_object dataProviderBibLaTeX then dataProviderBibLaTeX
      else Resolved (toBibLaTeX id' csl')
  | None => Resolved (toBibLaTeX id' csl')
  end.

Definition searchAllSources (this : BibliographyManager) (query : string)
  (limit : nat) : list BibliographySourceWithCollections :=
  match fuse this with
  | Some fz =>
      let options :=
        {| Fuse.isCaseSensitive := false;
           Fuse.shouldSort := true;
           Fuse.includeMatches := false;
           Fuse.includeScore := false;
           Fuse.limit := limit;
           Fuse.search_keys := kFields |} in
      let results := fuse_search fz query options in
      let items := map Fuse.item results in
      let filteredItems :=
        if isWritable this then items
        else
          filter (fun item =>
                    strict_eq_opt (provider item) kLocalBiliographyProviderKey)
            items in
      filteredItems
  | None => []
  end.

Definition searchProvider (this : BibliographyManager) (query : string)
  (limit : nat) (providerKey' : string)
  : list BibliographySourceWithCollections :=
  filter (fun item => providerKey item =? providerKey')
    (searchAllSources this query limit).

Definition searchProviderCollection (this : BibliographyManager)
  (query : string) (limit : nat) (providerKey' collectionKey : string)
  : list BibliographySourceWithCollections :=
  filter (fun item => includes (collectionKeys item) collectionKey)
    (searchProvider this query limit providerKey').

(** The general purpose search interface. *)
Definition search (this : BibliographyManager)
  (query providerKey' collectionKey : option string)
  : list BibliographySourceWithCollections :=
  let limit := 1000 in
  if truthy query then
    if truthy providerKey' && truthy collectionKey then
      searchProviderCollection this (the_string query) limit
        (the_string providerKey') (the_string collectionKey)
    else if truthy providerKey' then
      searchProvider this (the_string query) limit (the_string providerKey')
    else searchAllSources this (the_string query) limit
  else
    if truthy providerKey' && truthy collectionKey then
      sourcesForProviderCollection this (the_string providerKey')
        (the_string collectionKey)
    else if truthy providerKey' then
      sourcesForProvider this (the_string providerKey')
    else allSources this.

(** The remaining readers of the class. *)

Definition localProviders (providers : list BibliographyDataProvider.t)
  : list BibliographyDataProvider.t :=
  providers.

(** [warning]: the message of the first provider whose message is truthy;
    the method returns nothing when [find] finds none. *)
Definition warning (providers : list BibliographyDataProvider.t)
  : option string :=
  let warningProvider :=
    find (fun provider =>
            truthy (BibliographyDataProvider.warningMessage provider))
      providers in
  match warningProvider with
  | Some warningProvider =>
      BibliographyDataProvider.warningMessage warningProvider
  | None => None
  end.

Definition warningForProvider (providers : list BibliographyDataProvider.t)
  (providerKey' : option string) : option string :=
  if truthy providerKey' then
    let warningProvider :=
      find (fun prov =>
              BibliographyDataProvider.key prov =? the_string providerKey')
        providers in
    match warningProvider with
    | Some warningProvider =>
        BibliographyDataProvider.warningMessage warningProvider
    | None => None
    end
  else None.

Definition findDoiInLocalBibliography (this : BibliographyManager)
  (doi : string) : option BibliographySourceWithCollections :=
  find (fun source => strict_eq_opt (CSL.DOI (csl source)) doi)
    (localSources this).

Definition findIdInLocalBibliography (this : BibliographyManager)
  (id' : string) : option BibliographySourceWithCollections :=
  find (fun source => id source =? id') (localSources this).

End Manager.

(** ** The contract of [fuse.search]

    What the manager relies on from the fuzzy matcher.  [fuse_score] is the
    score fuse.js computes for a document against a query, from its weighted
    keys: 0 is a perfect match and 1 a complete mismatch, so relevance
    decreases as the score grows. *)

Definition Searcher : Type :=
  Fuse.t -> string -> Fuse.SearchOptions -> list Fuse.FuseResult.

Definition Score : Type :=
  Fuse.t -> string -> BibliographySourceWithCollections -> Q.

(** [a] is at least as relevant as [b] for the query. *)
Definition by_relevance (fuse_score : Score) (fz : Fuse.t) (query : string)
  (a b : BibliographySourceWithCollections) : Prop :=
  (fuse_score fz query a <= fuse_score fz query b)%Q.

(** At most [limit] results. *)
Definition respects_limit (fuse_search : Searcher) : Prop :=
  forall fz query options,
    List.length (fuse_search fz query options) <= Fuse.limit options.

(** With [shouldSort], results come in order of descending relevance. *)
Definition sorts_by_relevance (fuse_search : Searcher) (fuse_score : Score)
  : Prop :=
  forall fz query options,
    Fuse.shouldSort options = true ->
    StronglySorted (by_relevance fuse_score fz query)
      (map Fuse.item (fuse_search fz query options)).

(** Every result is a document of the collection the object was built on. *)
Definition draws_from_docs (fuse_search : Searcher) : Prop :=
  forall fz query options result,
    In result (fuse_search fz query options) ->
    In (Fuse.item result) (Fuse.docs fz).

(** ** A reference pipeline for [fuse.search]

    The steps of the library's search over an object list, with the fuzzy
    scoring of a single document left as a parameter: score every document
    and keep the matches, sort by score when [shouldSort], slice to [limit],
    format.  It shows that the contract above can be met, and gives the
    examples a matcher to run. *)

Module FusePipeline.

(** The score of a document that matches, [None] for one that does not. *)
Definition Scorer : Type :=
  Fuse.t -> string -> BibliographySourceWithCollections -> option Q.

Definition Scored : Type := (Fuse.FuseResult * Q)%type.

Fixpoint searchObjectList (scorer : Scorer) (fz : Fuse.t) (query : string)
  (docs : list BibliographySourceWithCollections) (idx : nat) : list Scored :=
  match docs with
  | [] => []
  | doc :: rest =>
      match scorer fz query doc with
      | Some s =>
          ({| Fuse.item := doc; Fuse.refIndex := idx |}, s)
            :: searchObjectList scorer fz query rest (S idx)
      | None => searchObjectList scorer fz query rest (S idx)
      end
  end.

(** Insertion before the first result that does not score lower: equal
    scores keep the order of their indices. *)
Fixpoint insert (x : Scored) (l : list Scored) : list Scored :=
  match l with
  | [] => [x]
  | y :: l' =>
      if Qle_bool (snd x) (snd y) then x :: y :: l' else y :: insert x l'
  end.

Definition sort (l : list Scored) : list Scored := fold_right insert [] l.

Definition ranked (scorer : Scorer) (fz : Fuse.t) (query : string)
  (options : Fuse.SearchOptions) : list Scored :=
  let results := searchObjectList scorer fz query (Fuse.docs fz) 0 in
  let results := if Fuse.shouldSort options then sort results else results in
  firstn (Fuse.limit options) results.

Definition search (scorer : Scorer) : Searcher :=
  fun fz query options => map fst (ranked scorer fz query options).

(** The score as the contract reads it: a document that does not match is a
    complete mismatch. *)
Definition score (scorer : Scorer) : Score :=
  fun fz query doc =>
    match scorer fz query doc with
    | Some s => s
    | None => 1%Q
    end.

(** Invariant of the scoring pass: a result is a document of the list and
    carries the score the scorer gave it. *)
Definition scored_from (scorer : Scorer) (fz : Fuse.t) (query : string)
  (docs : list BibliographySourceWithCollections) (x : Scored) : Prop :=
  In (Fuse.item (fst x)) docs /\
  scorer fz query (Fuse.item (fst x)) = Some (snd x).

(** The order the sort puts results in. *)
Definition score_le (x y : Scored) : Prop := (snd x <= snd y)%Q.

(** A simple scorer for the examples: a document matches when the query is a
    prefix of its [id], and scores the share of the [id] left unmatched. *)
Definition prefix_scorer : Scorer :=
  fun _ query doc =>
    if String.prefix query (id doc) then
      Some (Z.of_nat (String.length (id doc) - String.length query)
              # Pos.of_succ_nat (String.length (id doc)))
    else None.

End FusePipeline.

(** ** Reachable states

    The states a manager goes through: the constructed one, and the fields
    left by any [load], whatever the providers answer. *)
Inductive reachable : BibliographyManager -> Prop :=
| reachable_constructed : reachable constructed
| reachable_load : forall providers this,
    reachable this -> reachable (fst (load providers this)).

(** The index and the merged set move together: there is an index exactly
    when there is a merged set, and it is built on that set. *)
Definition index_in_step (this : BibliographyManager) : Prop :=
  match fuse this, sources this with
  | Some fz, Some srcs => Fuse.docs fz = srcs
  | None, None => True
  | _, _ => False
  end.

(** ** A two-provider scenario

    The providers of the spec's end-to-end scenario, as concrete inputs: a
    local provider with source [A1] and one bibliography file, and a remote
    one with source [B1]. *)

Module Scenario.

Definition kLocal : string := "local".
Definition kRemote : string := "zotero".

Definition csl_titled (title : string) : CSL.t :=
  {| CSL.title := Some title;
     CSL.author := [];
     CSL.issued := None;
     CSL.DOI := None |}.

Definition A1 : BibliographySourceWithCollections :=
  {| id := "A1"; providerKey := kLocal; collectionKeys := [];
     provider := None; csl := csl_titled "Foo" |}.

Definition B1 : BibliographySourceWithCollections :=
  {| id := "B1"; providerKey := kRemote; collectionKeys := ["C1"];
     provider := None; csl := csl_titled "Bar" |}.

(** A remote record whose object also carries a [provider] property. *)
Definition B2 : BibliographySourceWithCollections :=
  {| id := "B2"; providerKey := kRemote; collectionKeys := ["C1"];
     provider := Some kLocal; csl := csl_titled "Baz" |}.

Definition bibFile (path : string) (writable : bool) : BibliographyFile.t :=
  {| BibliographyFile.displayPath := path;
     BibliographyFile.fullPath := path;
     BibliographyFile.isProject := false;
     BibliographyFile.writable := writable |}.

(** A provider that never produces BibLaTeX of its own. *)
Definition make_provider (key name : string) (changed : bool)
  (items : list BibliographySourceWithCollections)
  (paths : list BibliographyFile.t) : BibliographyDataProvider.t :=
  {| BibliographyDataProvider.key := key;
     BibliographyDataProvider.name := name;
     BibliographyDataProvider.isEnabled := true;
     BibliographyDataProvider.load := Resolved changed;
     BibliographyDataProvider.collections := [];
     BibliographyDataProvider.items := items;
     BibliographyDataProvider.itemsForCollection := fun _ => [];
     BibliographyDataProvider.bibliographyPaths := paths;
     BibliographyDataProvider.generateBibLaTeX := fun _ _ => Resolved None;
     BibliographyDataProvider.warningMessage := None |}.

Definition Local (changed fileWritable : bool)
  (items : list BibliographySourceWithCollections)
  : BibliographyDataProvider.t :=
  make_provider kLocal "Bibliography" changed items
    [bibFile "references.bib" fileWritable].

Definition Remote (changed : bool)
  (items : list BibliographySourceWithCollections)
  : BibliographyDataProvider.t :=
  make_provider kRemote "Zotero" changed items [].

Definition fuse_search : Searcher :=
  FusePipeline.search FusePipeline.prefix_scorer.

Definition fuse_score : Score :=
  FusePipeline.score FusePipeline.prefix_scorer.

(** Both providers report a change; the local file is writable. *)
Definition writable_providers : list BibliographyDataProvider.t :=
  [Local true true [A1]; Remote true [B1]].

Definition writable_state : BibliographyManager :=
  fst (load writable_providers constructed).

(** Both providers report a change; the local file is read-only. *)
Definition readonly_providers : list BibliographyDataProvider.t :=
  [Local true false [A1]; Remote true [B1; B2]].

Definition readonly_state : BibliographyManager :=
  fst (load readonly_providers constructed).

(** A reload of the writable scenario in which nothing changed. *)
Definition unchanged_providers : list BibliographyDataProvider.t :=
  [Local false true [A1]; Remote false [B1]].

(** The local record numbered [n], with id "A" followed by [n] in decimal. *)
Definition numbered (n : nat) : BibliographySourceWithCollections :=
  {| id := "A" ++ NilEmpty.string_of_uint (Nat.to_uint n);
     providerKey := kLocal; collectionKeys := [];
     provider := None; csl := csl_titled "Foo" |}.

(** A local library of 1001 records, "A1" to "A1001". *)
Definition large_providers : list BibliographyDataProvider.t :=
  [Local true true (map numbered (seq 1 1001)); Remote true []].

Definition large_state : BibliographyManager :=
  fst (load large_providers constructed).

(** The local provider reports a change and has no record. *)
Definition empty_state : BibliographyManager :=
  fst (load [Local true true []; Remote false []] constructed).

(** A local record with a DOI, and a remote record with the same id and
    DOI. *)
Definition A3 : BibliographySourceWithCollections :=
  {| id := "A3"; providerKey := kLocal; collectionKeys := [];
     provider := None;
     csl := {| CSL.title := Some "Qux"; CSL.author := []; CSL.issued := None;
               CSL.DOI := Some "10.1000/xyz" |} |}.

Definition B3 : BibliographySourceWithCollections :=
  {| id := "A3"; providerKey := kRemote; collectionKeys := ["C1"];
     provider := None; csl := csl A3 |}.

(** Both copies are loaded; the local file is writable. *)
Definition twin_providers : list BibliographyDataProvider.t :=
  [Local true true [A1; A3]; Remote true [B3; B1]].

Definition twin_state : BibliographyManager :=
  fst (load twin_providers constructed).

(** A provider with a warning message. *)
Definition with_warning (message : option string)
  (p : BibliographyDataProvider.t) : BibliographyDataProvider.t :=
  {| BibliographyDataProvider.key := BibliographyDataProvider.key p;
     BibliographyDataProvider.name := BibliographyDataProvider.name p;
     BibliographyDataProvider.isEnabled := BibliographyDataProvider.isEnabled p;
     BibliographyDataProvider.load := BibliographyDataProvider.load p;
     BibliographyDataProvider.collections :=
       BibliographyDataProvider.collections p;
     BibliographyDataProvider.items := BibliographyDataProvider.items p;
     BibliographyDataProvider.itemsForCollection :=
       BibliographyDataProvider.itemsForCollection p;
     BibliographyDataProvider.bibliographyPaths :=
       BibliographyDataProvider.bibliographyPaths p;
     BibliographyDataProvider.generateBibLaTeX :=
       BibliographyDataProvider.generateBibLaTeX p;
     BibliographyDataProvider.warningMessage := message |}.

(** The local provider has an empty message, the remote one a real one. *)
Definition warning_providers : list BibliographyDataProvider.t :=
  [with_warning (Some "") (Local true true [A1]);
   with_warning (Some "Unable to reach Zotero") (Remote true [B1])].

(** A provider whose load rejects. *)
Definition with_failed_load (reason : string)
  (p : BibliographyDataProvider.t) : BibliographyDataProvider.t :=
  {| BibliographyDataProvider.key := BibliographyDataProvider.key p;
     BibliographyDataProvider.name := BibliographyDataProvider.name p;
     BibliographyDataProvider.isEnabled := BibliographyDataProvider.isEnabled p;
     BibliographyDataProvider.load := Rejected reason;
     BibliographyDataProvider.collections :=
       BibliographyDataProvider.collections p;
     BibliographyDataProvider.items := BibliographyDataProvider.items p;
     BibliographyDataProvider.itemsForCollection :=
       BibliographyDataProvider.itemsForCollection p;
     BibliographyDataProvider.bibliographyPaths :=
       BibliographyDataProvider.bibliographyPaths p;
     BibliographyDataProvider.generateBibLaTeX :=
       BibliographyDataProvider.generateBibLaTeX p;
     BibliographyDataProvider.warningMessage :=
       BibliographyDataProvider.warningMessage p |}.

(** A reload in which nothing changed but the local file became
    read-only. *)
Definition locked_providers : list BibliographyDataProvider.t :=
  [Local false false [A1]; Remote false [B1]].

(** Only the second provider lists a bibliography file. *)
Definition remote_file_providers (fileWritable : bool)
  : list BibliographyDataProvider.t :=
  [make_provider kLocal "Bibliography" true [A1] [];
   make_provider kRemote "Zotero" true [B1]
     [bibFile "zotero.bib" fileWritable]].

(** The local provider reports a change, the remote load fails. *)
Definition failing_providers : list BibliographyDataProvider.t :=
  [Local true false [A1; A3];
   with_failed_load "network" (Remote true [B1])].

End Scenario.

(** * Properties *)

(** ** Lists *)

Lemma StronglySorted_filter {A : Type} (R : A -> A -> Prop) (f : A -> bool)
  (l : list A) :
  StronglySorted R l -> StronglySorted R (filter f l).
Proof.
  induction 1 as [| a l Hl IH Ha]; simpl.
  - constructor.
  - destruct (f a).
    + constructor; [exact IH |].
      rewrite Forall_forall in *.
      intros x Hx. apply Ha. apply filter_In in Hx. tauto.
    + exact IH.
Qed.

Lemma StronglySorted_firstn {A : Type} (R : A -> A -> Prop) (n : nat)
  (l : list A) :
  StronglySorted R l -> StronglySorted R (firstn n l).
Proof.
  intros Hl. revert n.
  induction Hl as [| a l Hl IH Ha]; intros [| n]; simpl; try constructor.
  - apply IH.
  - rewrite Forall_forall in *.
    intros x Hx. apply Ha.
    rewrite <- (firstn_skipn n l). apply in_or_app. now left.
Qed.

Lemma In_firstn {A : Type} (n : nat) (l : list A) (x : A) :
  In x (firstn n l) -> In x l.
Proof.
  intros Hx. rewrite <- (firstn_skipn n l). apply in_or_app. now left.
Qed.

Lemma filter_nil_of_all_false {A : Type} (f : A -> bool) (l : list A) :
  (forall x, In x l -> f x = false) -> filter f l = [].
Proof.
  induction l as [| a l IH]; intros H; simpl; [reflexivity |].
  rewrite (H a (or_introl eq_refl)). apply IH.
  intros x Hx. apply H. now right.
Qed.

Lemma filter_twice {A : Type} (f g : A -> bool) (l : list A) :
  filter g (filter f l) = filter (fun x => f x && g x) l.
Proof.
  induction l as [| a l IH]; simpl; [reflexivity |].
  destruct (f a); simpl; [destruct (g a) |]; now rewrite IH.
Qed.

(** ** JavaScript values *)

Lemma truthy_empty : truthy (Some "") = false.
Proof. reflexivity. Qed.

Lemma truthy_nonempty (s : string) : s <> "" -> truthy (Some s) = true.
Proof.
  intros Hs. unfold truthy.
  destruct (String.eqb_spec s ""); [contradiction | reflexivity].
Qed.

Lemma reduce_or_all_false (xs : list bool) :
  Forall (fun x => x = false) xs ->
  reduce_or xs = None \/ reduce_or xs = Some false.
Proof.
  destruct 1 as [| x rest Hx Hrest]; [now left | right].
  subst x. simpl. f_equal.
  induction Hrest as [| y rest Hy _ IH]; [reflexivity |].
  subst y. exact IH.
Qed.

Lemma Promise_all_resolved {A : Type} (ps : list (Promise A)) (v : A) :
  Forall (fun p => p = Resolved v) ps ->
  Promise_all ps = Resolved (repeat v (List.length ps)).
Proof.
  induction 1 as [| p ps Hp _ IH]; simpl; [reflexivity |].
  subst p. now rewrite IH.
Qed.

Lemma Promise_all_values {A : Type} (ps : list (Promise A)) (vs : list A) (v : A) :
  Forall (fun p => p = Resolved v) ps ->
  Promise_all ps = Resolved vs ->
  Forall (fun x => x = v) vs.
Proof.
  intros Hps Hall. rewrite (Promise_all_resolved ps v Hps) in Hall.
  injection Hall as <-. apply Forall_forall.
  intros x Hx. now apply repeat_spec in Hx.
Qed.

(** ** The reference pipeline meets the contract *)

Section PipelineContract.

Variable scorer : FusePipeline.Scorer.

Lemma searchObjectList_scored (fz : Fuse.t) (query : string)
  (docs : list BibliographySourceWithCollections) (idx : nat) :
  Forall (FusePipeline.scored_from scorer fz query docs)
    (FusePipeline.searchObjectList scorer fz query docs idx).
Proof.
  revert idx. induction docs as [| doc rest IH]; intros idx; simpl.
  - constructor.
  - assert (Hrest : Forall (FusePipeline.scored_from scorer fz query (doc :: rest))
                      (FusePipeline.searchObjectList scorer fz query rest (S idx))).
    { eapply Forall_impl; [| apply IH].
      intros x [Hin Hs]. split; [now right | exact Hs]. }
    destruct (scorer fz query doc) as [s |] eqn:Hdoc; [| exact Hrest].
    constructor; [| exact Hrest].
    split; simpl; [now left | exact Hdoc].
Qed.

Lemma insert_In (x y : FusePipeline.Scored) (l : list FusePipeline.Scored) :
  In y (FusePipeline.insert x l) <-> y = x \/ In y l.
Proof.
  induction l as [| z l IH]; simpl.
  - intuition congruence.
  - destruct (Qle_bool (snd x) (snd z)); simpl; rewrite ?IH;
      intuition congruence.
Qed.

Lemma sort_In (y : FusePipeline.Scored) (l : list FusePipeline.Scored) :
  In y (FusePipeline.sort l) <-> In y l.
Proof.
  induction l as [| x l IH]; simpl; [tauto |].
  fold (FusePipeline.sort l). rewrite insert_In, IH.
  intuition congruence.
Qed.

Lemma Qle_bool_false (a b : Q) : Qle_bool a b = false -> (b <= a)%Q.
Proof.
  intros H. apply Qlt_le_weak, Qnot_le_lt.
  intros Hle. apply Qle_bool_iff in Hle. congruence.
Qed.

Lemma insert_sorted (x : FusePipeline.Scored) (l : list FusePipeline.Scored) :
  StronglySorted FusePipeline.score_le l -> StronglySorted FusePipeline.score_le (FusePipeline.insert x l).
Proof.
  induction 1 as [| z l Hl IH Hz]; simpl.
  - repeat constructor.
  - destruct (Qle_bool (snd x) (snd z)) eqn:Hxz.
    + apply Qle_bool_iff in Hxz.
      constructor; [now constructor |].
      constructor; [exact Hxz |].
      eapply Forall_impl; [| exact Hz].
      intros y Hy. unfold FusePipeline.score_le in *. eapply Qle_trans; eassumption.
    + apply Qle_bool_false in Hxz.
      constructor; [exact IH |].
      apply Forall_forall. intros y Hy.
      apply insert_In in Hy. destruct Hy as [-> | Hy]; [exact Hxz |].
      rewrite Forall_forall in Hz. now apply Hz.
Qed.

Lemma sort_sorted (l : list FusePipeline.Scored) :
  StronglySorted FusePipeline.score_le (FusePipeline.sort l).
Proof.
  induction l as [| x l IH]; simpl; [constructor |].
  now apply insert_sorted.
Qed.

Lemma ranked_scored (fz : Fuse.t) (query : string)
  (options : Fuse.SearchOptions) :
  Forall (FusePipeline.scored_from scorer fz query (Fuse.docs fz))
    (FusePipeline.ranked scorer fz query options).
Proof.
  apply Forall_forall. intros x Hx.
  unfold FusePipeline.ranked in Hx. apply In_firstn in Hx.
  pose proof (searchObjectList_scored fz query (Fuse.docs fz) 0) as Hall.
  rewrite Forall_forall in Hall. apply Hall.
  destruct (Fuse.shouldSort options); [now apply sort_In | exact Hx].
Qed.

Lemma pipeline_respects_limit :
  respects_limit (FusePipeline.search scorer).
Proof.
  intros fz query options.
  unfold FusePipeline.search, FusePipeline.ranked.
  rewrite length_map. apply firstn_le_length.
Qed.

Lemma pipeline_draws_from_docs :
  draws_from_docs (FusePipeline.search scorer).
Proof.
  intros fz query options result Hin.
  unfold FusePipeline.search in Hin.
  apply in_map_iff in Hin. destruct Hin as [x [<- Hx]].
  pose proof (ranked_scored fz query options) as Hall.
  rewrite Forall_forall in Hall. now apply Hall.
Qed.

Lemma sorted_items (fz : Fuse.t) (query : string)
  (l : list FusePipeline.Scored) :
  Forall (fun x => scorer fz query (Fuse.item (fst x)) = Some (snd x)) l ->
  StronglySorted FusePipeline.score_le l ->
  StronglySorted (by_relevance (FusePipeline.score scorer) fz query)
    (map Fuse.item (map fst l)).
Proof.
  intros Hscored Hsorted.
  induction Hsorted as [| x l Hl IH Hx]; simpl; [constructor |].
  inversion Hscored as [| ? ? Hsx Hsl]; subst.
  constructor; [now apply IH |].
  rewrite map_map. apply Forall_map.
  rewrite Forall_forall in *. intros y Hy.
  unfold by_relevance, FusePipeline.score.
  rewrite Hsx, (Hsl y Hy). now apply Hx.
Qed.

Lemma pipeline_sorts_by_relevance :
  sorts_by_relevance (FusePipeline.search scorer) (FusePipeline.score scorer).
Proof.
  intros fz query options Hsort.
  unfold FusePipeline.search. apply sorted_items.
  - eapply Forall_impl; [| apply ranked_scored].
    intros x [_ Hs]. exact Hs.
  - unfold FusePipeline.ranked. rewrite Hsort.
    apply StronglySorted_firstn, sort_sorted.
Qed.

End PipelineContract.

(** ** The manager *)

Section ManagerProperties.

Variable kLocalBiliographyProviderKey : string.
Variable fuse_search : Searcher.

(** *** Loading *)

(** The fields a [load] leaves, by the way the provider loads settle. *)
Lemma load_cases (providers : list BibliographyDataProvider.t)
  (this : BibliographyManager) :
  let this' := fst (load providers this) in
  (this' = this) \/
  (fuse this' = fuse this /\ sources this' = sources this /\
   writable this' = Some (shouldAllowWrites providers)) \/
  (exists fz,
     fuse this' = Some fz /\
     Fuse.docs fz = List.concat (map BibliographyDataProvider.items providers) /\
     sources this' =
       Some (List.concat (map BibliographyDataProvider.items providers)) /\
     writable this' = Some (shouldAllowWrites providers)).
Proof.
  unfold load.
  destruct (Promise_all (map BibliographyDataProvider.load providers))
    as [needs | e]; simpl; [| now left].
  destruct (reduce_or needs) as [[|] |]; simpl.
  - right; right. eexists. repeat split.
  - right; left. repeat split.
  - right; left. repeat split.
Qed.

Lemma load_keeps_index_in_step (providers : list BibliographyDataProvider.t)
  (this : BibliographyManager) :
  index_in_step this -> index_in_step (fst (load providers this)).
Proof.
  intros Hthis.
  destruct (load_cases providers this) as [H | [H | H]].
  - now rewrite H.
  - destruct H as (Hf & Hs & _). unfold index_in_step.
    now rewrite Hf, Hs.
  - destruct H as (fz & Hf & Hd & Hs & _). unfold index_in_step.
    now rewrite Hf, Hs.
Qed.

Lemma reachable_index_in_step (this : BibliographyManager) :
  reachable this -> index_in_step this.
Proof.
  induction 1 as [| providers this _ IH].
  - exact I.
  - now apply load_keeps_index_in_step.
Qed.

(** *** Visibility *)

Lemma allSources_unloaded (this : BibliographyManager) :
  sources this = None -> allSources kLocalBiliographyProviderKey this = [].
Proof. intros H. unfold allSources. now rewrite H. Qed.

(** *** Search *)

Lemma searchAllSources_no_index (this : BibliographyManager) (query : string)
  (limit : nat) :
  fuse this = None ->
  searchAllSources kLocalBiliographyProviderKey fuse_search this query limit = [].
Proof. intros H. unfold searchAllSources. now rewrite H. Qed.

(** The options [searchAllSources] hands to the matcher. *)
Lemma searchAllSources_results (this : BibliographyManager) (query : string)
  (limit : nat) (fz : Fuse.t) :
  fuse this = Some fz ->
  exists options,
    Fuse.limit options = limit /\ Fuse.shouldSort options = true /\
    Fuse.search_keys options = kFields /\
    searchAllSources kLocalBiliographyProviderKey fuse_search this query limit =
      if isWritable this then map Fuse.item (fuse_search fz query options)
      else
        filter (fun item =>
                  strict_eq_opt (provider item) kLocalBiliographyProviderKey)
          (map Fuse.item (fuse_search fz query options)).
Proof.
  intros H. unfold searchAllSources. rewrite H.
  exists {| Fuse.isCaseSensitive := false;
            Fuse.shouldSort := true;
            Fuse.includeMatches := false;
            Fuse.includeScore := false;
            Fuse.limit := limit;
            Fuse.search_keys := kFields |}.
  repeat split.
Qed.

(** A search with a query text is a filtering of [searchAllSources]. *)
Lemma search_query_filters (this : BibliographyManager) (query : string)
  (providerKey' collectionKey : option string) :
  query <> "" ->
  exists keep,
    search kLocalBiliographyProviderKey fuse_search this (Some query)
      providerKey' collectionKey =
    filter keep
      (searchAllSources kLocalBiliographyProviderKey fuse_search this query 1000).
Proof.
  intros Hq. unfold search. rewrite (truthy_nonempty query Hq). simpl.
  destruct (truthy providerKey' && truthy collectionKey) eqn:Hpc.
  - unfold searchProviderCollection, searchProvider.
    eexists. apply filter_twice.
  - destruct (truthy providerKey').
    + eexists. reflexivity.
    + exists (fun _ => true).
      symmetry. apply forallb_filter_id. apply forallb_forall. reflexivity.
Qed.

End ManagerProperties.

(** ** Claims about the manager *)

Section Claims.

Variable kLocalBiliographyProviderKey : string.
Variable toBibLaTeX : string -> CSL.t -> option string.
Variable fuse_search : Searcher.
Variable fuse_score : Score.

(** Without a query text, a search is a filtering of [allSources]. *)
Lemma search_no_query_filters (this : BibliographyManager)
  (query providerKey' collectionKey : option string) :
  truthy query = false ->
  exists keep,
    search kLocalBiliographyProviderKey fuse_search this query
      providerKey' collectionKey =
    filter keep (allSources kLocalBiliographyProviderKey this).
Proof.
  intros Hq. unfold search. rewrite Hq.
  destruct (truthy providerKey' && truthy collectionKey).
  - unfold sourcesForProviderCollection, sourcesForProvider.
    eexists. apply filter_twice.
  - destruct (truthy providerKey').
    + eexists. reflexivity.
    + exists (fun _ => true).
      symmetry. apply forallb_filter_id. apply forallb_forall. reflexivity.
Qed.

(** When the manager is not writable, the items of a free-text search are
    kept by their [provider] property. *)
Lemma searchAllSources_readonly (this : BibliographyManager) (query : string)
  (limit : nat) :
  isWritable this = false ->
  Forall (fun item => provider item = Some kLocalBiliographyProviderKey)
    (searchAllSources kLocalBiliographyProviderKey fuse_search this query limit).
Proof.
  intros Hw. unfold searchAllSources.
  destruct (fuse this) as [fz |]; [| constructor].
  rewrite Hw. apply Forall_forall. intros item Hitem.
  apply filter_In in Hitem. destruct Hitem as [_ Heq].
  unfold strict_eq_opt in Heq.
  destruct (provider item) as [p |]; [| discriminate].
  apply String.eqb_eq in Heq. now subst.
Qed.

(** On records that carry the declared properties only, a free-text search
    of a manager that is not writable finds nothing, local records
    included. *)
Lemma searchAllSources_readonly_declared_only (this : BibliographyManager)
  (query : string) (limit : nat) (fz : Fuse.t) :
  draws_from_docs fuse_search ->
  fuse this = Some fz ->
  Forall (fun doc => provider doc = None) (Fuse.docs fz) ->
  isWritable this = false ->
  searchAllSources kLocalBiliographyProviderKey fuse_search this query limit = [].
Proof.
  intros Hdocs Hfz Hdecl Hw.
  destruct (searchAllSources_results kLocalBiliographyProviderKey fuse_search
              this query limit fz Hfz) as (options & _ & _ & _ & ->).
  rewrite Hw. apply filter_nil_of_all_false.
  intros item Hitem. apply in_map_iff in Hitem.
  destruct Hitem as (result & <- & Hresult).
  apply Hdocs in Hresult. rewrite Forall_forall in Hdecl.
  now rewrite (Hdecl _ Hresult).
Qed.

(** A provider that is found answers for the manager, whatever its promise
    resolves to. *)
Lemma generateBibLaTeX_found (providers : list BibliographyDataProvider.t)
  (id' : string) (csl' : CSL.t) (provider' : option string)
  (dataProvider : BibliographyDataProvider.t) :
  find (fun prov => strict_eq_opt provider' (BibliographyDataProvider.key prov))
    providers = Some dataProvider ->
  generateBibLaTeX toBibLaTeX providers id' csl' provider' =
  BibliographyDataProvider.generateBibLaTeX dataProvider id' csl'.
Proof. intros H. unfold generateBibLaTeX. now rewrite H. Qed.

(** C3: in a loaded state, [allSources] is the whole merged set when the
    manager is writable; when it is not, it is the merged records whose
    [providerKey] is the local provider's key, in their order, and no record
    of another provider. *)
Theorem allSources_visibility_gate (this : BibliographyManager)
  (srcs : list BibliographySourceWithCollections) :
  sources this = Some srcs ->
  (isWritable this = true ->
   allSources kLocalBiliographyProviderKey this = srcs) /\
  (isWritable this = false ->
   allSources kLocalBiliographyProviderKey this =
     filter (fun source => providerKey source =? kLocalBiliographyProviderKey)
       srcs /\
   forall source,
     In source (allSources kLocalBiliographyProviderKey this) <->
     In source srcs /\ providerKey source = kLocalBiliographyProviderKey).
Proof.
  intros Hsrcs. unfold allSources. rewrite Hsrcs. split; intros Hw; rewrite Hw.
  - reflexivity.
  - simpl. split; [reflexivity |].
    intros source. rewrite filter_In, String.eqb_eq. reflexivity.
Qed.

(** C4: the writability computed at load is true when the concatenation of
    [bibliographyPaths] over all providers is empty, and otherwise true
    exactly when some provider lists a file that is writable; [isWritable]
    returns that value after a load whose provider loads resolve. *)
Theorem shouldAllowWrites_policy (providers : list BibliographyDataProvider.t) :
  (List.concat (map BibliographyDataProvider.bibliographyPaths providers) = [] ->
   shouldAllowWrites providers = true) /\
  (List.concat (map BibliographyDataProvider.bibliographyPaths providers) <> [] ->
   (shouldAllowWrites providers = true <->
    exists p bibFile,
      In p providers /\
      In bibFile (BibliographyDataProvider.bibliographyPaths p) /\
      BibliographyFile.writable bibFile = true)) /\
  (forall this providersNeedUpdate,
     Promise_all (map BibliographyDataProvider.load providers) =
       Resolved providersNeedUpdate ->
     isWritable (fst (load providers this)) = shouldAllowWrites providers).
Proof.
  assert (Hlisted : forall bibFile,
            In bibFile
              (List.concat
                 (map BibliographyDataProvider.bibliographyPaths providers)) <->
            exists p,
              In p providers /\
              In bibFile (BibliographyDataProvider.bibliographyPaths p)).
  { intros bibFile. rewrite in_concat. split.
    - intros (files & Hfiles & Hin). apply in_map_iff in Hfiles.
      destruct Hfiles as (p & <- & Hp). now exists p.
    - intros (p & Hp & Hin).
      exists (BibliographyDataProvider.bibliographyPaths p).
      split; [now apply in_map | exact Hin]. }
  unfold shouldAllowWrites, bibliographyFiles.
  destruct (List.concat
              (map BibliographyDataProvider.bibliographyPaths providers))
    as [| f files] eqn:Hfiles.
  - split; [reflexivity |]. split; [contradiction |].
    intros this needs Hall. unfold load. rewrite Hall.
    unfold isWritable, shouldAllowWrites, bibliographyFiles. rewrite Hfiles.
    destruct (reduce_or needs) as [[|] |]; reflexivity.
  - split; [discriminate |]. split.
    + intros _. simpl List.length at 1. simpl Nat.eqb. cbv iota.
      rewrite Nat.ltb_lt. split.
      * intros Hlen.
        destruct (filter BibliographyFile.writable (f :: files))
          as [| w ws] eqn:Hw; [simpl in Hlen; lia |].
        assert (Hin : In w (filter BibliographyFile.writable (f :: files)))
          by (rewrite Hw; now left).
        apply filter_In in Hin. destruct Hin as [Hin Hwritable].
        apply Hlisted in Hin. destruct Hin as (p & Hp & Hin).
        now exists p, w.
      * intros (p & w & Hp & Hin & Hwritable).
        assert (Hw : In w (filter BibliographyFile.writable (f :: files))).
        { apply filter_In. split; [| exact Hwritable].
          apply Hlisted. now exists p. }
        destruct (filter BibliographyFile.writable (f :: files));
          [contradiction | simpl; lia].
    + intros this needs Hall. unfold load. rewrite Hall.
      unfold isWritable, shouldAllowWrites, bibliographyFiles. rewrite Hfiles.
      destruct (reduce_or needs) as [[|] |]; simpl; apply orb_false_r.
Qed.

(** C5: a load in which every provider's load resolves to false leaves the
    merged record set and the search index as they were. *)
Theorem load_without_change_keeps_sources_and_index
  (providers : list BibliographyDataProvider.t) (this : BibliographyManager) :
  Forall (fun p => BibliographyDataProvider.load p = Resolved false) providers ->
  sources (fst (load providers this)) = sources this /\
  fuse (fst (load providers this)) = fuse this.
Proof.
  intros Hnone.
  assert (Hloads : Forall (fun p => p = Resolved false)
                     (map BibliographyDataProvider.load providers))
    by now apply Forall_map.
  unfold load.
  destruct (Promise_all (map BibliographyDataProvider.load providers))
    as [needs | e] eqn:Hall; [| now split].
  pose proof (Promise_all_values _ _ _ Hloads Hall) as Hfalse.
  destruct (reduce_or_all_false needs Hfalse) as [-> | ->]; now split.
Qed.

(** C6 (amended): for every non-empty query text, [search] returns at most
    1000 records, in order of descending relevance for the query, and
    [searchAllSources] returns at most its [limit], given a matcher that
    respects its limit and sorts. *)
Theorem search_query_bounded_and_ranked (this : BibliographyManager)
  (query : string) (providerKey' collectionKey : option string) :
  respects_limit fuse_search ->
  sorts_by_relevance fuse_search fuse_score ->
  query <> "" ->
  let found :=
    search kLocalBiliographyProviderKey fuse_search this (Some query)
      providerKey' collectionKey in
  (forall limit,
     List.length
       (searchAllSources kLocalBiliographyProviderKey fuse_search this query
          limit) <= limit) /\
  List.length found <= 1000 /\
  match fuse this with
  | Some fz => StronglySorted (by_relevance fuse_score fz query) found
  | None => found = []
  end.
Proof.
  intros Hlimit Hsorted Hq found.
  assert (Hbound : forall limit,
            List.length
              (searchAllSources kLocalBiliographyProviderKey fuse_search this
                 query limit) <= limit).
  { intros limit. destruct (fuse this) as [fz |] eqn:Hfz.
    - destruct (searchAllSources_results kLocalBiliographyProviderKey
                  fuse_search this query limit fz Hfz)
        as (options & Hl & _ & _ & ->).
      pose proof (Hlimit fz query options) as Hlen. rewrite Hl in Hlen.
      destruct (isWritable this).
      + now rewrite length_map.
      + eapply Nat.le_trans; [apply filter_length_le |].
        now rewrite length_map.
    - rewrite (searchAllSources_no_index kLocalBiliographyProviderKey
                 fuse_search this query limit Hfz).
      simpl. lia. }
  split; [exact Hbound |].
  destruct (search_query_filters kLocalBiliographyProviderKey fuse_search this
              query providerKey' collectionKey Hq) as [keep Hfound].
  fold found in Hfound. rewrite Hfound. clear found Hfound.
  split.
  - eapply Nat.le_trans; [apply filter_length_le | apply Hbound].
  - destruct (fuse this) as [fz |] eqn:Hfz.
    + destruct (searchAllSources_results kLocalBiliographyProviderKey
                  fuse_search this query 1000 fz Hfz)
        as (options & _ & Hs & _ & ->).
      pose proof (Hsorted fz query options Hs) as Hord.
      apply StronglySorted_filter.
      destruct (isWritable this); [exact Hord |].
      now apply StronglySorted_filter.
    + now rewrite (searchAllSources_no_index kLocalBiliographyProviderKey
                     fuse_search this query 1000 Hfz).
Qed.

(** C7: in a state reached from the constructed one, when no index was ever
    built or the merged set is empty, [searchAllSources] returns the empty
    sequence for every query and limit, and so does [search] with a
    query, for a matcher that returns documents of its collection.  The
    functions are total: no call raises. *)
Theorem search_without_index_or_sources_is_empty (this : BibliographyManager)
  (query : string) (limit : nat) (providerKey' collectionKey : option string) :
  draws_from_docs fuse_search ->
  reachable this ->
  fuse this = None \/ sources this = None \/ sources this = Some [] ->
  searchAllSources kLocalBiliographyProviderKey fuse_search this query limit
    = [] /\
  search kLocalBiliographyProviderKey fuse_search this (Some query)
    providerKey' collectionKey = [].
Proof.
  intros Hdocs Hreach Hempty.
  apply reachable_index_in_step in Hreach. unfold index_in_step in Hreach.
  assert (Hall : forall limit',
            searchAllSources kLocalBiliographyProviderKey fuse_search this
              query limit' = []).
  { intros limit'.
    destruct (fuse this) as [fz |] eqn:Hfz;
      [| now apply searchAllSources_no_index].
    destruct (sources this) as [srcs |]; [| contradiction].
    destruct Hempty as [H | [H | H]]; try discriminate.
    injection H as ->.
    destruct (searchAllSources_results kLocalBiliographyProviderKey
                fuse_search this query limit' fz Hfz)
      as (options & _ & _ & _ & ->).
    assert (Hnone : fuse_search fz query options = []).
    { destruct (fuse_search fz query options) as [| result rest] eqn:Hres;
        [reflexivity |].
      exfalso. pose proof (Hdocs fz query options result) as Hin.
      rewrite Hres, Hreach in Hin. apply Hin. now left. }
    rewrite Hnone. now destruct (isWritable this). }
  split; [apply Hall |].
  destruct (String.eqb_spec query "") as [-> | Hq].
  - destruct (search_no_query_filters this (Some "") providerKey'
                collectionKey truthy_empty) as [keep ->].
    assert (Hnone : allSources kLocalBiliographyProviderKey this = []).
    { unfold allSources.
      destruct (sources this) as [srcs |]; [| reflexivity].
      destruct (fuse this) as [fz |]; [| contradiction].
      destruct Hempty as [H | [H | H]]; try discriminate.
      injection H as ->. now destruct (truthy_object [] && isWritable this). }
    now rewrite Hnone.
  - destruct (search_query_filters kLocalBiliographyProviderKey fuse_search
                this query providerKey' collectionKey Hq) as [keep ->].
    now rewrite Hall.
Qed.

(** C8 (amended): for every query, and every provider key and collection
    key that are not empty strings, the search scoped by both is the search
    scoped by the provider with the records whose [collectionKeys] contain
    the collection key kept, in the same order. *)
Theorem search_collection_scope_composes (this : BibliographyManager)
  (query : option string) (P C : string) :
  P <> "" ->
  C <> "" ->
  search kLocalBiliographyProviderKey fuse_search this query (Some P) (Some C) =
  filter (fun item => includes (collectionKeys item) C)
    (search kLocalBiliographyProviderKey fuse_search this query (Some P) None).
Proof.
  intros HP HC. unfold search.
  rewrite (truthy_nonempty P HP), (truthy_nonempty C HC). simpl.
  destruct (truthy query); reflexivity.
Qed.

(** C9: a search with the empty string as its query is the search with no
    query: it is the scoped filtering of [allSources], and its result does
    not depend on the matcher or on the index. *)
Theorem search_empty_query_as_absent (this : BibliographyManager)
  (providerKey' collectionKey : option string) :
  search kLocalBiliographyProviderKey fuse_search this (Some "")
    providerKey' collectionKey =
  search kLocalBiliographyProviderKey fuse_search this None
    providerKey' collectionKey /\
  search kLocalBiliographyProviderKey fuse_search this (Some "")
    providerKey' collectionKey =
  (if truthy providerKey' && truthy collectionKey then
     sourcesForProviderCollection kLocalBiliographyProviderKey this
       (the_string providerKey') (the_string collectionKey)
   else if truthy providerKey' then
     sourcesForProvider kLocalBiliographyProviderKey this
       (the_string providerKey')
   else allSources kLocalBiliographyProviderKey this) /\
  (forall (fuse_search' : Searcher) (fuse' : option Fuse.t),
     search kLocalBiliographyProviderKey fuse_search'
       {| fuse := fuse'; sources := sources this; writable := writable this |}
       (Some "") providerKey' collectionKey =
     search kLocalBiliographyProviderKey fuse_search this (Some "")
       providerKey' collectionKey).
Proof.
  unfold search. rewrite truthy_empty.
  change (truthy None) with false.
  split; [reflexivity |]. split; [reflexivity |].
  intros fuse_search' fuse'.
  unfold sourcesForProviderCollection, sourcesForProvider, allSources,
    isWritable.
  reflexivity.
Qed.

(** C10: on a manager that was constructed and never loaded, [isWritable]
    is false, [allSources] is empty, [hasSources] is false and
    [sourcesForProvider] is empty for every provider key. *)
Theorem constructed_is_empty_and_not_writable :
  isWritable constructed = false /\
  allSources kLocalBiliographyProviderKey constructed = [] /\
  hasSources kLocalBiliographyProviderKey constructed = false /\
  (forall providerKey',
     sourcesForProvider kLocalBiliographyProviderKey constructed providerKey'
       = []).
Proof.
  assert (Hall : allSources kLocalBiliographyProviderKey constructed = [])
    by now apply allSources_unloaded.
  split; [reflexivity |]. split; [exact Hall |].
  split; [unfold hasSources; now rewrite Hall |].
  intros providerKey'. unfold sourcesForProvider. now rewrite Hall.
Qed.

End Claims.

(** ** The scenario, evaluated *)

Lemma scenario_states_reachable :
  reachable Scenario.writable_state /\ reachable Scenario.readonly_state /\
  reachable Scenario.large_state /\ reachable Scenario.empty_state.
Proof.
  repeat split; apply reachable_load, reachable_constructed.
Qed.

(** C1: the free-text search of a manager that is not writable keeps items
    by their [provider] property, not by [providerKey].  In the read-only
    scenario the query "B" returns the remote record [B2], whose
    [providerKey] is not the local key, and the query "A" returns nothing
    although the local record [A1] matches it and is visible through
    [allSources]. *)
Theorem search_readonly_keeps_by_provider_property :
  isWritable Scenario.readonly_state = false /\
  search Scenario.kLocal Scenario.fuse_search Scenario.readonly_state
    (Some "B") None None = [Scenario.B2] /\
  (providerKey Scenario.B2 =? Scenario.kLocal) = false /\
  search Scenario.kLocal Scenario.fuse_search Scenario.readonly_state
    (Some "A") None None = [] /\
  allSources Scenario.kLocal Scenario.readonly_state = [Scenario.A1] /\
  search Scenario.kLocal Scenario.fuse_search Scenario.writable_state
    (Some "A") None None = [Scenario.A1].
Proof.
  repeat split.
Qed.

(** C2: naming a provider that exists and resolves to no output of its own,
    [generateBibLaTeX] settles as that provider's promise does, to no
    output, whatever the generic formatter [toBibLaTeX] would produce; the
    formatter is reached only when no provider has the given key. *)
Theorem generateBibLaTeX_declining_provider_is_final
  (toBibLaTeX : string -> CSL.t -> option string) :
  generateBibLaTeX toBibLaTeX Scenario.writable_providers "A1"
    (csl Scenario.A1) (Some Scenario.kLocal) = Resolved None /\
  generateBibLaTeX toBibLaTeX Scenario.writable_providers "A1"
    (csl Scenario.A1) None = Resolved (toBibLaTeX "A1" (csl Scenario.A1)).
Proof.
  split; reflexivity.
Qed.

Lemma allSources_visibility_gate_witness :
  sources Scenario.readonly_state
    = Some [Scenario.A1; Scenario.B1; Scenario.B2] /\
  isWritable Scenario.readonly_state = false /\
  allSources Scenario.kLocal Scenario.readonly_state = [Scenario.A1].
Proof.
  split; [reflexivity |]. split; [reflexivity |].
  destruct (allSources_visibility_gate Scenario.kLocal Scenario.readonly_state
              [Scenario.A1; Scenario.B1; Scenario.B2] eq_refl) as [_ Hgate].
  destruct (Hgate eq_refl) as [Hfiltered _].
  exact Hfiltered.
Defined.

Lemma shouldAllowWrites_policy_witness :
  shouldAllowWrites (Scenario.remote_file_providers true) = true /\
  shouldAllowWrites (Scenario.remote_file_providers false) = false /\
  isWritable (fst (load (Scenario.remote_file_providers false) constructed))
    = false.
Proof.
  destruct (shouldAllowWrites_policy (Scenario.remote_file_providers true))
    as (_ & Hwritable & _).
  destruct (shouldAllowWrites_policy (Scenario.remote_file_providers false))
    as (_ & Hreadonly & Hload).
  assert (Hrefused :
            shouldAllowWrites (Scenario.remote_file_providers false) = false).
  { destruct (shouldAllowWrites (Scenario.remote_file_providers false))
      eqn:Hallowed; [| reflexivity].
    exfalso.
    destruct (proj1 (Hreadonly ltac:(discriminate)) eq_refl)
      as (p & bibFile & Hp & Hin & Hw).
    destruct Hp as [<- | [<- | []]]; simpl in Hin.
    - contradiction.
    - destruct Hin as [<- | []]. discriminate. }
  split; [| split; [exact Hrefused |]].
  - apply Hwritable; [discriminate |].
    exists (Scenario.make_provider Scenario.kRemote "Zotero" true
              [Scenario.B1] [Scenario.bibFile "zotero.bib" true]),
      (Scenario.bibFile "zotero.bib" true).
    split; [right; now left |]. split; [now left | reflexivity].
  - rewrite (Hload constructed [true; true] eq_refl). exact Hrefused.
Defined.

Lemma load_without_change_keeps_sources_and_index_witness :
  sources (fst (load Scenario.unchanged_providers Scenario.writable_state))
    = Some [Scenario.A1; Scenario.B1] /\
  fuse (fst (load Scenario.unchanged_providers Scenario.writable_state))
    = fuse Scenario.writable_state.
Proof.
  apply (load_without_change_keeps_sources_and_index
           Scenario.unchanged_providers Scenario.writable_state).
  repeat constructor.
Defined.

Lemma search_query_bounded_and_ranked_witness :
  (forall limit,
     List.length
       (searchAllSources Scenario.kLocal Scenario.fuse_search
          Scenario.large_state "A" limit) <= limit) /\
  List.length
    (search Scenario.kLocal Scenario.fuse_search Scenario.large_state
       (Some "A") None None) <= 1000 /\
  match fuse Scenario.large_state with
  | Some fz =>
      StronglySorted (by_relevance Scenario.fuse_score fz "A")
        (search Scenario.kLocal Scenario.fuse_search Scenario.large_state
           (Some "A") None None)
  | None =>
      search Scenario.kLocal Scenario.fuse_search Scenario.large_state
        (Some "A") None None = []
  end.
Proof.
  apply (search_query_bounded_and_ranked Scenario.kLocal Scenario.fuse_search
           Scenario.fuse_score Scenario.large_state "A" None None).
  - apply pipeline_respects_limit.
  - apply pipeline_sorts_by_relevance.
  - discriminate.
Defined.

(** The bound of C6 does not hold for the empty query text: over 1001 records
    it returns them all. *)
Lemma search_empty_query_not_bounded :
  List.length
    (search Scenario.kLocal Scenario.fuse_search Scenario.large_state
       (Some "") None None) = 1001.
Proof.
  vm_compute. reflexivity.
Qed.

Lemma search_without_index_or_sources_is_empty_witness :
  sources Scenario.empty_state = Some [] /\
  searchAllSources Scenario.kLocal Scenario.fuse_search Scenario.empty_state
    "A" 1000 = [] /\
  search Scenario.kLocal Scenario.fuse_search Scenario.empty_state
    (Some "A") None None = [].
Proof.
  split; [reflexivity |].
  apply (search_without_index_or_sources_is_empty Scenario.kLocal
           Scenario.fuse_search Scenario.empty_state "A" 1000 None None).
  - apply pipeline_draws_from_docs.
  - apply reachable_load, reachable_constructed.
  - right; right. reflexivity.
Defined.

Lemma search_collection_scope_composes_witness :
  search Scenario.kLocal Scenario.fuse_search Scenario.writable_state
    (Some "B") (Some Scenario.kRemote) (Some "C1") =
  filter (fun item => includes (collectionKeys item) "C1")
    (search Scenario.kLocal Scenario.fuse_search Scenario.writable_state
       (Some "B") (Some Scenario.kRemote) None).
Proof.
  apply (search_collection_scope_composes Scenario.kLocal Scenario.fuse_search
           Scenario.writable_state (Some "B") Scenario.kRemote "C1");
    discriminate.
Defined.

(** The composition of C8 does not hold for an empty collection key or an
    empty provider key: an empty key is no scope at all, so the search on the
    left keeps a record that the filtering on the right drops. *)
Lemma search_empty_collection_key_not_composed :
  search Scenario.kLocal Scenario.fuse_search Scenario.writable_state
    (Some "B") (Some Scenario.kRemote) (Some "") = [Scenario.B1] /\
  filter (fun item => includes (collectionKeys item) "")
    (search Scenario.kLocal Scenario.fuse_search Scenario.writable_state
       (Some "B") (Some Scenario.kRemote) None) = [] /\
  search Scenario.kLocal Scenario.fuse_search Scenario.writable_state
    (Some "B") (Some "") (Some "C2") = [Scenario.B1] /\
  filter (fun item => includes (collectionKeys item) "C2")
    (search Scenario.kLocal Scenario.fuse_search Scenario.writable_state
       (Some "B") (Some "") None) = [].
Proof.
  repeat split.
Qed.

(** * Further properties of the manager *)

(** ** Lists and promises *)

Lemma filter_same_twice {A : Type} (f : A -> bool) (l : list A) :
  filter f (filter f l) = filter f l.
Proof.
  rewrite filter_twice. apply filter_ext. intros a. now destruct (f a).
Qed.

Lemma find_filter {A : Type} (f g : A -> bool) (l : list A) :
  find g (filter f l) = find (fun x => f x && g x) l.
Proof.
  induction l as [| a l IH]; simpl; [reflexivity |].
  destruct (f a); simpl; [destruct (g a); [reflexivity | exact IH] | exact IH].
Qed.

(** [find] returns the first match: nothing before it matches. *)
Lemma find_first {A : Type} (f : A -> bool) (l : list A) (x : A) :
  find f l = Some x ->
  exists before after,
    l = (before ++ x :: after)%list /\ f x = true /\
    Forall (fun y => f y = false) before.
Proof.
  induction l as [| a l IH]; simpl; [discriminate |].
  destruct (f a) eqn:Ha.
  - intros [= ->]. exists [], l. repeat split; [exact Ha | constructor].
  - intros Hx. destruct (IH Hx) as (before & after & -> & Hfx & Hbefore).
    exists (a :: before), after. repeat split; [exact Hfx |].
    now constructor.
Qed.

Lemma find_none_iff {A : Type} (f : A -> bool) (l : list A) :
  find f l = None <-> Forall (fun y => f y = false) l.
Proof.
  split.
  - intros H. apply Forall_forall. intros y Hy.
    now apply (find_none f l H).
  - induction 1 as [| a l Ha _ IH]; simpl; [reflexivity |].
    now rewrite Ha.
Qed.

Lemma fold_left_orb (xs : list bool) (x : bool) :
  fold_left (fun prev curr => prev || curr) xs x = x || existsb (fun b => b) xs.
Proof.
  revert x. induction xs as [| y xs IH]; intros x; simpl.
  - now rewrite orb_false_r.
  - rewrite IH. now rewrite orb_assoc.
Qed.

Lemma reduce_or_some_true (xs : list bool) :
  In true xs -> reduce_or xs = Some true.
Proof.
  destruct xs as [| x rest]; [contradiction |].
  intros Hin. simpl. f_equal. rewrite fold_left_orb.
  destruct Hin as [-> | Hin]; [reflexivity |].
  apply orb_true_iff. right. apply existsb_exists. now exists true.
Qed.

(** [Promise.all] over promises that all resolve resolves with their
    values, in order. *)
Lemma Promise_all_of_resolved {A : Type} (vs : list A) :
  Promise_all (map Resolved vs) = Resolved vs.
Proof.
  induction vs as [| v vs IH]; simpl; [reflexivity |]. now rewrite IH.
Qed.

Lemma all_resolved_values {A : Type} (ps : list (Promise A)) :
  Forall (fun p => exists v, p = Resolved v) ps ->
  exists vs, ps = map Resolved vs.
Proof.
  induction 1 as [| p ps [v ->] _ [vs ->]].
  - now exists [].
  - now exists (v :: vs).
Qed.

(** [Promise.all] rejects as soon as one member does. *)
Lemma Promise_all_rejects {A : Type} (ps : list (Promise A)) :
  Exists (fun p => exists e, p = Rejected e) ps ->
  exists e, Promise_all ps = Rejected e.
Proof.
  induction ps as [| p ps IH]; intros Hex; [inversion Hex |].
  destruct p as [v | e]; simpl; [| now exists e].
  inversion Hex as [? ? [e He] | ? ? Hrest]; subst; [discriminate |].
  destruct (IH Hrest) as [e ->]. now exists e.
Qed.

(** ** Readers of the merged set *)

Section Readers.

Variable kLocalBiliographyProviderKey : string.
Variable fuse_search : Searcher.

Lemma allSources_of_sources (this : BibliographyManager) :
  allSources kLocalBiliographyProviderKey this =
  match sources this with
  | Some srcs =>
      if isWritable this then srcs
      else
        filter (fun source => providerKey source =? kLocalBiliographyProviderKey)
          srcs
  | None => []
  end.
Proof. unfold allSources. now destruct (sources this). Qed.

Lemma localSources_of_sources (this : BibliographyManager) :
  localSources kLocalBiliographyProviderKey this =
  match sources this with
  | Some srcs =>
      filter (fun source => providerKey source =? kLocalBiliographyProviderKey)
        srcs
  | None => []
  end.
Proof.
  unfold localSources. rewrite allSources_of_sources.
  destruct (sources this) as [srcs |]; [| reflexivity].
  destruct (isWritable this); [reflexivity | apply filter_same_twice].
Qed.

Lemma In_allSources (this : BibliographyManager)
  (r : BibliographySourceWithCollections) :
  In r (allSources kLocalBiliographyProviderKey this) ->
  exists srcs, sources this = Some srcs /\ In r srcs.
Proof.
  rewrite allSources_of_sources.
  destruct (sources this) as [srcs |]; [| contradiction].
  intros Hr. exists srcs. split; [reflexivity |].
  destruct (isWritable this); [exact Hr |].
  apply filter_In in Hr. tauto.
Qed.

(** X1: The local records do not depend on writability: [localSources] is the
    records of the merged set with the local provider key, whether the
    manager is writable or not, and is all of [allSources] when it is not. *)
Theorem localSources_ignores_writability (this : BibliographyManager) :
  (forall r,
     In r (localSources kLocalBiliographyProviderKey this) <->
     exists srcs,
       sources this = Some srcs /\ In r srcs /\
       providerKey r = kLocalBiliographyProviderKey) /\
  (isWritable this = false ->
   localSources kLocalBiliographyProviderKey this =
   allSources kLocalBiliographyProviderKey this).
Proof.
  split.
  - intros r. rewrite localSources_of_sources.
    destruct (sources this) as [srcs |].
    + rewrite filter_In, String.eqb_eq. split.
      * intros [Hin Hkey]. now exists srcs.
      * intros (srcs' & [= <-] & Hin & Hkey). now split.
    + split; [contradiction |]. now intros (srcs' & [=] & _).
  - intros Hw. rewrite localSources_of_sources, allSources_of_sources, Hw.
    reflexivity.
Qed.

(** X2: [findIdInLocalBibliography] returns a record of the merged set that
    has the given id and the local provider key, and returns nothing exactly
    when the merged set has no such record: a remote record with that id is
    never returned, writable or not. *)
Theorem findIdInLocalBibliography_finds_local (this : BibliographyManager)
  (id' : string) :
  (forall r,
     findIdInLocalBibliography kLocalBiliographyProviderKey this id' = Some r ->
     id r = id' /\ providerKey r = kLocalBiliographyProviderKey /\
     exists srcs, sources this = Some srcs /\ In r srcs) /\
  (findIdInLocalBibliography kLocalBiliographyProviderKey this id' = None <->
   forall srcs r,
     sources this = Some srcs -> In r srcs ->
     providerKey r = kLocalBiliographyProviderKey -> id r <> id').
Proof.
  unfold findIdInLocalBibliography. rewrite localSources_of_sources.
  destruct (sources this) as [srcs |]; simpl.
  - rewrite find_filter. split.
    + intros r Hr. apply find_some in Hr. destruct Hr as [Hin Hr].
      apply andb_true_iff in Hr. destruct Hr as [Hk Hi].
      apply String.eqb_eq in Hk. apply String.eqb_eq in Hi.
      repeat split; try assumption. now exists srcs.
    + rewrite find_none_iff, Forall_forall. split.
      * intros Hnone srcs' r [= <-] Hin Hk Hi.
        specialize (Hnone r Hin).
        apply String.eqb_eq in Hk. apply String.eqb_eq in Hi.
        rewrite Hk, Hi in Hnone. discriminate.
      * intros Hnone r Hin.
        destruct (String.eqb_spec (providerKey r) kLocalBiliographyProviderKey)
          as [Hk | Hk]; [| reflexivity].
        destruct (String.eqb_spec (id r) id') as [Hi | Hi]; [| reflexivity].
        exfalso. exact (Hnone srcs r eq_refl Hin Hk Hi).
  - split; [discriminate |]. split; [discriminate | reflexivity].
Qed.

(** X3: [findDoiInLocalBibliography] returns a record of the merged set whose
    DOI is the given one and whose provider key is the local one, and
    returns nothing exactly when the merged set has no such record; a record
    without a DOI never matches. *)
Theorem findDoiInLocalBibliography_finds_local (this : BibliographyManager)
  (doi : string) :
  (forall r,
     findDoiInLocalBibliography kLocalBiliographyProviderKey this doi = Some r ->
     CSL.DOI (csl r) = Some doi /\
     providerKey r = kLocalBiliographyProviderKey /\
     exists srcs, sources this = Some srcs /\ In r srcs) /\
  (findDoiInLocalBibliography kLocalBiliographyProviderKey this doi = None <->
   forall srcs r,
     sources this = Some srcs -> In r srcs ->
     providerKey r = kLocalBiliographyProviderKey ->
     CSL.DOI (csl r) <> Some doi).
Proof.
  assert (Hdoi : forall r,
            strict_eq_opt (CSL.DOI (csl r)) doi = true <->
            CSL.DOI (csl r) = Some doi).
  { intros r. unfold strict_eq_opt. destruct (CSL.DOI (csl r)) as [d |].
    - rewrite String.eqb_eq. split; [now intros -> | now intros [= ->]].
    - split; discriminate. }
  unfold findDoiInLocalBibliography. rewrite localSources_of_sources.
  destruct (sources this) as [srcs |]; simpl.
  - rewrite find_filter. split.
    + intros r Hr. apply find_some in Hr. destruct Hr as [Hin Hr].
      apply andb_true_iff in Hr. destruct Hr as [Hk Hd].
      apply String.eqb_eq in Hk. apply Hdoi in Hd.
      repeat split; try assumption. now exists srcs.
    + rewrite find_none_iff, Forall_forall. split.
      * intros Hnone srcs' r [= <-] Hin Hk Hd.
        specialize (Hnone r Hin).
        apply String.eqb_eq in Hk. apply Hdoi in Hd.
        rewrite Hk, Hd in Hnone. discriminate.
      * intros Hnone r Hin.
        destruct (String.eqb_spec (providerKey r) kLocalBiliographyProviderKey)
          as [Hk | Hk]; [| reflexivity].
        destruct (strict_eq_opt (CSL.DOI (csl r)) doi) eqn:Hd; [| reflexivity].
        exfalso. apply Hdoi in Hd. exact (Hnone srcs r eq_refl Hin Hk Hd).
  - split; [discriminate |]. split; [discriminate | reflexivity].
Qed.

(** X4: When the manager is not writable, the sources of every provider other
    than the local one are hidden: [sourcesForProvider] and
    [sourcesForProviderCollection] return nothing for its key. *)
Theorem remote_sources_hidden_when_not_writable (this : BibliographyManager)
  (P : string) :
  isWritable this = false ->
  P <> kLocalBiliographyProviderKey ->
  sourcesForProvider kLocalBiliographyProviderKey this P = [] /\
  (forall C,
     sourcesForProviderCollection kLocalBiliographyProviderKey this P C = []).
Proof.
  intros Hw HP.
  assert (Hnone : sourcesForProvider kLocalBiliographyProviderKey this P = []).
  { unfold sourcesForProvider. rewrite allSources_of_sources, Hw.
    destruct (sources this) as [srcs |]; [| reflexivity].
    rewrite filter_twice. apply filter_nil_of_all_false.
    intros r _.
    destruct (String.eqb_spec (providerKey r) kLocalBiliographyProviderKey)
      as [Hk | Hk]; [| reflexivity].
    destruct (String.eqb_spec (providerKey r) P) as [HrP | HrP];
      [| reflexivity].
    exfalso. apply HP. now rewrite <- HrP. }
  split; [exact Hnone |].
  intros C. unfold sourcesForProviderCollection. now rewrite Hnone.
Qed.

(** X5: [hasSources] is true exactly when the merged set holds a record that is
    visible: any record when the manager is writable, a local one when it
    is not. *)
Theorem hasSources_iff_visible_record (this : BibliographyManager) :
  hasSources kLocalBiliographyProviderKey this = true <->
  exists srcs r,
    sources this = Some srcs /\ In r srcs /\
    (isWritable this = true \/ providerKey r = kLocalBiliographyProviderKey).
Proof.
  unfold hasSources. rewrite Nat.ltb_lt, allSources_of_sources.
  destruct (sources this) as [srcs |].
  - destruct (isWritable this).
    + split.
      * destruct srcs as [| r srcs]; simpl; [lia |].
        intros _. exists (r :: srcs), r. repeat split; [now left | now left].
      * intros (srcs' & r & [= <-] & Hin & _).
        destruct srcs; [contradiction | simpl; lia].
    + split.
      * destruct (filter _ srcs) as [| r rest] eqn:Hf; simpl; [lia |].
        intros _.
        assert (Hr : In r (filter
                   (fun source =>
                      providerKey source =? kLocalBiliographyProviderKey) srcs))
          by (rewrite Hf; now left).
        apply filter_In in Hr. destruct Hr as [Hin Hk].
        apply String.eqb_eq in Hk. exists srcs, r. now repeat split; [| right].
      * intros (srcs' & r & [= <-] & Hin & [Hw | Hk]); [discriminate |].
        assert (Hr : In r (filter
                   (fun source =>
                      providerKey source =? kLocalBiliographyProviderKey) srcs))
          by (apply filter_In; split; [exact Hin | now apply String.eqb_eq]).
        destruct (filter _ srcs); [contradiction | simpl; lia].
  - simpl. split; [lia |]. now intros (srcs' & r & [=] & _).
Qed.

Lemma includes_In (xs : list string) (x : string) :
  includes xs x = true <-> In x xs.
Proof.
  unfold includes. rewrite existsb_exists. split.
  - intros (y & Hy & Heq). apply String.eqb_eq in Heq. now subst.
  - intros Hx. exists x. split; [exact Hx | apply String.eqb_refl].
Qed.

Lemma Forall_filter_holds {A : Type} (f : A -> bool) (l : list A) :
  Forall (fun x => f x = true) (filter f l).
Proof.
  apply Forall_forall. intros x Hx. apply filter_In in Hx. tauto.
Qed.

Lemma Forall_filter_keeps {A : Type} (P : A -> Prop) (f : A -> bool)
  (l : list A) :
  Forall P l -> Forall P (filter f l).
Proof.
  rewrite !Forall_forall. intros H x Hx. apply H.
  apply filter_In in Hx. tauto.
Qed.

(** Every item of a free-text search is a document of the index. *)
Lemma In_searchAllSources (this : BibliographyManager) (query : string)
  (limit : nat) (r : BibliographySourceWithCollections) :
  draws_from_docs fuse_search ->
  In r (searchAllSources kLocalBiliographyProviderKey fuse_search this query
          limit) ->
  exists fz, fuse this = Some fz /\ In r (Fuse.docs fz).
Proof.
  intros Hdocs Hr.
  destruct (fuse this) as [fz |] eqn:Hfz.
  - exists fz. split; [reflexivity |].
    destruct (searchAllSources_results kLocalBiliographyProviderKey
                fuse_search this query limit fz Hfz)
      as (options & _ & _ & _ & Heq).
    rewrite Heq in Hr.
    assert (Hitem : In r (map Fuse.item (fuse_search fz query options))).
    { destruct (isWritable this); [exact Hr |].
      apply filter_In in Hr. tauto. }
    apply in_map_iff in Hitem. destruct Hitem as (result & <- & Hresult).
    now apply (Hdocs fz query options).
  - now rewrite (searchAllSources_no_index kLocalBiliographyProviderKey
                   fuse_search this query limit Hfz) in Hr.
Qed.

(** X6: A search scoped by a provider key returns records of that provider
    only, with or without a query text, and one scoped by a collection key
    as well returns only records that belong to the collection. *)
Theorem search_scope_is_sound (this : BibliographyManager)
  (query collectionKey : option string) (P : string) :
  P <> "" ->
  Forall (fun r => providerKey r = P)
    (search kLocalBiliographyProviderKey fuse_search this query (Some P)
       collectionKey) /\
  (forall C,
     C <> "" ->
     Forall (fun r => In C (collectionKeys r))
       (search kLocalBiliographyProviderKey fuse_search this query (Some P)
          (Some C))).
Proof.
  intros HP.
  assert (Hkey : forall l,
            Forall (fun r => providerKey r = P)
              (filter (fun item => providerKey item =? P) l)).
  { intros l. eapply Forall_impl; [| apply Forall_filter_holds].
    intros r Hr. now apply String.eqb_eq. }
  assert (Hcol : forall C l,
            Forall (fun r => In C (collectionKeys r))
              (filter (fun item => includes (collectionKeys item) C) l)).
  { intros C l. eapply Forall_impl; [| apply Forall_filter_holds].
    intros r Hr. now apply includes_In. }
  split.
  - unfold search. rewrite (truthy_nonempty P HP). simpl.
    destruct (truthy query), (truthy collectionKey); simpl;
      unfold searchProviderCollection, searchProvider,
        sourcesForProviderCollection, sourcesForProvider;
      first [apply Hkey | apply Forall_filter_keeps; apply Hkey].
  - intros C HC. unfold search.
    rewrite (truthy_nonempty P HP), (truthy_nonempty C HC). simpl.
    destruct (truthy query);
      unfold searchProviderCollection, sourcesForProviderCollection;
      apply Hcol.
Qed.

(** X7: A search never returns a record that is not in the merged set, whatever
    the query and the scope, in any state reached from the constructed one
    and for a matcher that returns documents of its collection. *)
Theorem search_returns_merged_records (this : BibliographyManager)
  (query providerKey' collectionKey : option string)
  (r : BibliographySourceWithCollections) :
  draws_from_docs fuse_search ->
  reachable this ->
  In r (search kLocalBiliographyProviderKey fuse_search this query
          providerKey' collectionKey) ->
  exists srcs, sources this = Some srcs /\ In r srcs.
Proof.
  intros Hdocs Hreach Hr.
  apply reachable_index_in_step in Hreach. unfold index_in_step in Hreach.
  destruct (truthy query) eqn:Hq.
  - destruct query as [q |]; [| discriminate].
    assert (Hne : q <> "").
    { intros ->. discriminate. }
    destruct (search_query_filters kLocalBiliographyProviderKey fuse_search
                this q providerKey' collectionKey Hne) as [keep Heq].
    rewrite Heq in Hr. apply filter_In in Hr. destruct Hr as [Hr _].
    destruct (In_searchAllSources this q 1000 r Hdocs Hr) as (fz & Hfz & Hin).
    rewrite Hfz in Hreach.
    destruct (sources this) as [srcs |]; [| contradiction].
    exists srcs. split; [reflexivity | now rewrite <- Hreach].
  - destruct (search_no_query_filters kLocalBiliographyProviderKey fuse_search
                this query providerKey' collectionKey Hq) as [keep Heq].
    rewrite Heq in Hr. apply filter_In in Hr. destruct Hr as [Hr _].
    now apply In_allSources.
Qed.

(** X8: Without a provider key (absent or the empty string) the collection key
    is not used: the search is the unscoped one. *)
Theorem search_ignores_collection_without_provider (this : BibliographyManager)
  (query providerKey' collectionKey : option string) :
  truthy providerKey' = false ->
  search kLocalBiliographyProviderKey fuse_search this query providerKey'
    collectionKey =
  search kLocalBiliographyProviderKey fuse_search this query None None.
Proof.
  intros Hp. unfold search. rewrite Hp. simpl.
  now destruct (truthy query).
Qed.

End Readers.

(** ** Providers: warnings, names and files *)

Section Providers.

Variable toBibLaTeX : string -> CSL.t -> option string.

Lemma truthy_some (s : option string) :
  truthy s = true <-> exists w, s = Some w /\ w <> "".
Proof.
  unfold truthy. destruct s as [w |].
  - destruct (String.eqb_spec w "") as [-> | Hw]; simpl.
    + split; [discriminate |]. intros (w' & [= <-] & Hw'). now elim Hw'.
    + split; [| reflexivity]. intros _. now exists w.
  - split; [discriminate |]. now intros (w & [=] & _).
Qed.

Lemma warning_none_or_nonempty (providers : list BibliographyDataProvider.t) :
  (warning providers = None ->
   forall p, In p providers ->
     truthy (BibliographyDataProvider.warningMessage p) = false) /\
  (forall w, warning providers = Some w -> w <> "").
Proof.
  unfold warning.
  destruct (find _ providers) as [p |] eqn:Hfind.
  - apply find_some in Hfind. destruct Hfind as [_ Hp].
    destruct (proj1 (truthy_some _) Hp) as (w & Hw & Hne).
    rewrite Hw. split; [discriminate |]. now intros w' [= <-].
  - split; [| discriminate].
    intros _ p Hin. now apply (find_none _ _ Hfind).
Qed.

(** X9: [warning] reports nothing exactly when no provider has a non-empty
    message; otherwise it reports a non-empty message, that of the first
    provider in order that has one: providers before it have none or an
    empty one. *)
Theorem warning_is_first_nonempty
  (providers : list BibliographyDataProvider.t) :
  (warning providers = None <->
   Forall (fun p => truthy (BibliographyDataProvider.warningMessage p) = false)
     providers) /\
  (forall w,
     warning providers = Some w ->
     w <> "" /\
     exists before p after,
       providers = (before ++ p :: after)%list /\
       BibliographyDataProvider.warningMessage p = Some w /\
       Forall
         (fun q => truthy (BibliographyDataProvider.warningMessage q) = false)
         before).
Proof.
  unfold warning.
  destruct (find _ providers) as [p |] eqn:Hfind.
  - destruct (find_first _ _ _ Hfind) as (before & after & Heq & Hp & Hbefore).
    destruct (proj1 (truthy_some _) Hp) as (w & Hw & Hne).
    split.
    + split.
      * rewrite Hw. discriminate.
      * intros Hall. apply find_none_iff in Hall.
        rewrite Hall in Hfind. discriminate.
    + intros w' Hw'. rewrite Hw in Hw'. injection Hw' as <-.
      split; [exact Hne |]. now exists before, p, after.
  - split.
    + split; [intros _; now apply find_none_iff | reflexivity].
    + discriminate.
Qed.

(** X10: [warningForProvider] reports nothing when the key is absent or empty,
    and when no provider has the key. *)
Theorem warningForProvider_without_provider
  (providers : list BibliographyDataProvider.t) (providerKey' : option string) :
  truthy providerKey' = false \/
  (forall p, In p providers ->
     BibliographyDataProvider.key p <> the_string providerKey') ->
  warningForProvider providers providerKey' = None.
Proof.
  intros [Hk | Hnone]; unfold warningForProvider.
  - now rewrite Hk.
  - destruct (truthy providerKey'); [| reflexivity].
    destruct (find _ providers) as [p |] eqn:Hfind; [| reflexivity].
    apply find_some in Hfind. destruct Hfind as [Hin Hkey].
    apply String.eqb_eq in Hkey. now elim (Hnone p Hin).
Qed.

(** X11: A non-empty warning for some provider key is never silent at large:
    whenever [warningForProvider] returns a non-empty message, [warning]
    returns a non-empty message too. *)
Theorem warningForProvider_implies_warning
  (providers : list BibliographyDataProvider.t) (providerKey' : option string) :
  truthy (warningForProvider providers providerKey') = true ->
  exists w, warning providers = Some w /\ w <> "".
Proof.
  intros Hw.
  destruct (warning providers) as [w |] eqn:Hwarning.
  - exists w. split; [reflexivity |].
    now apply (proj2 (warning_none_or_nonempty providers) w).
  - exfalso.
    pose proof (proj1 (warning_none_or_nonempty providers) Hwarning)
      as Hsilent.
    unfold warningForProvider in Hw.
    destruct (truthy providerKey'); [| discriminate].
    destruct (find _ providers) as [p |] eqn:Hfind; [| discriminate].
    apply find_some in Hfind. destruct Hfind as [Hin _].
    rewrite (Hsilent p Hin) in Hw. discriminate.
Qed.

Lemma find_by_key (providers : list BibliographyDataProvider.t) (k : string) :
  find (fun prov => strict_eq_opt (Some k) (BibliographyDataProvider.key prov))
    providers =
  find (fun prov => BibliographyDataProvider.key prov =? k) providers.
Proof.
  induction providers as [| p ps IH]; simpl; [reflexivity |].
  rewrite (String.eqb_sym k).
  destruct (BibliographyDataProvider.key p =? k); [reflexivity | exact IH].
Qed.

(** X12: With no provider key, or with a key that [providerName] does not know,
    [generateBibLaTeX] resolves to what the generic formatter returns. *)
Theorem generateBibLaTeX_without_provider
  (providers : list BibliographyDataProvider.t) (id' : string) (csl' : CSL.t)
  (provider' : option string) :
  (forall k, provider' = Some k -> providerName providers k = None) ->
  generateBibLaTeX toBibLaTeX providers id' csl' provider' =
  Resolved (toBibLaTeX id' csl').
Proof.
  intros Hunknown. unfold generateBibLaTeX.
  destruct provider' as [k |].
  - rewrite find_by_key.
    specialize (Hunknown k eq_refl). unfold providerName in Hunknown.
    destruct (find _ providers); [discriminate | reflexivity].
  - assert (Hnone : forall ps : list BibliographyDataProvider.t,
              find (fun prov =>
                      strict_eq_opt None (BibliographyDataProvider.key prov))
                ps = None)
      by (induction ps; simpl; auto).
    now rewrite Hnone.
Qed.

(** X13: With a key that [providerName] knows, [generateBibLaTeX] settles as the
    promise of the first provider with that key does, whatever that promise
    resolves to; the name reported is that provider's. *)
Theorem generateBibLaTeX_named_provider_answers
  (providers : list BibliographyDataProvider.t) (id' : string) (csl' : CSL.t)
  (k n : string) :
  providerName providers k = Some n ->
  exists before p after,
    providers = (before ++ p :: after)%list /\
    Forall (fun q => BibliographyDataProvider.key q <> k) before /\
    BibliographyDataProvider.key p = k /\
    BibliographyDataProvider.name p = n /\
    generateBibLaTeX toBibLaTeX providers id' csl' (Some k) =
    BibliographyDataProvider.generateBibLaTeX p id' csl'.
Proof.
  unfold providerName, generateBibLaTeX. rewrite find_by_key.
  destruct (find _ providers) as [p |] eqn:Hfind; [| discriminate].
  intros [= <-].
  destruct (find_first _ _ _ Hfind) as (before & after & Heq & Hp & Hbefore).
  exists before, p, after. repeat split.
  - exact Heq.
  - eapply Forall_impl; [| exact Hbefore].
    intros q Hq Hk. apply String.eqb_neq in Hq. contradiction.
  - now apply String.eqb_eq.
Qed.

(** X14: The files offered as save targets are the writable files of the
    providers, and writes are refused exactly when the providers list some
    file and none is a save target. *)
Theorem writableBibliographyFiles_decide_writability
  (providers : list BibliographyDataProvider.t) :
  (forall bibFile,
     In bibFile (writableBibliographyFiles providers) <->
     (exists p,
        In p providers /\
        In bibFile (BibliographyDataProvider.bibliographyPaths p)) /\
     BibliographyFile.writable bibFile = true) /\
  (shouldAllowWrites providers = false <->
   bibliographyFiles providers <> [] /\
   writableBibliographyFiles providers = []).
Proof.
  split.
  - intros bibFile. unfold writableBibliographyFiles, bibliographyFiles.
    rewrite filter_In, in_concat. split.
    + intros [(files & Hfiles & Hin) Hw]. split; [| exact Hw].
      apply in_map_iff in Hfiles. destruct Hfiles as (p & <- & Hp).
      now exists p.
    + intros [(p & Hp & Hin) Hw]. split; [| exact Hw].
      exists (BibliographyDataProvider.bibliographyPaths p).
      split; [now apply in_map | exact Hin].
  - unfold shouldAllowWrites, writableBibliographyFiles.
    destruct (bibliographyFiles providers) as [| f files] eqn:Hfiles.
    + simpl. split; [discriminate |]. now intros [Hne _].
    + simpl List.length at 1. simpl Nat.eqb. cbv iota.
      rewrite Nat.ltb_ge. split.
      * intros Hlen. split; [discriminate |].
        destruct (filter BibliographyFile.writable (f :: files));
          [reflexivity | simpl in Hlen; lia].
      * intros [_ ->]. simpl. lia.
Qed.

End Providers.

(** ** Loading *)

Lemma loads_resolved (providers : list BibliographyDataProvider.t) :
  Forall (fun p => exists b, BibliographyDataProvider.load p = Resolved b)
    providers ->
  exists needs,
    Promise_all (map BibliographyDataProvider.load providers) = Resolved needs /\
    map BibliographyDataProvider.load providers = map Resolved needs.
Proof.
  intros Hall.
  destruct (all_resolved_values (map BibliographyDataProvider.load providers))
    as [needs Hneeds].
  { apply Forall_map. exact Hall. }
  exists needs. split; [| exact Hneeds].
  rewrite Hneeds. apply Promise_all_of_resolved.
Qed.

(** X15: A load in which every provider load resolves and one reports a change
    replaces the merged set by the providers' items, in provider order,
    builds the index on that set with the names of [kFields] as keys, and
    stores the writability: nothing of the state before the call is kept. *)
Theorem load_with_change_replaces
  (providers : list BibliographyDataProvider.t) (this : BibliographyManager) :
  Forall (fun p => exists b, BibliographyDataProvider.load p = Resolved b)
    providers ->
  Exists (fun p => BibliographyDataProvider.load p = Resolved true) providers ->
  let merged := List.concat (map BibliographyDataProvider.items providers) in
  let keys := map Fuse.name kFields in
  load providers this =
  ({| fuse := Some {| Fuse.docs := merged;
                      Fuse.options := {| Fuse.keys := keys |};
                      Fuse.index := Fuse.createIndex keys merged |};
      sources := Some merged;
      writable := Some (shouldAllowWrites providers) |},
   Resolved tt).
Proof.
  intros Hall Hchange merged keys.
  destruct (loads_resolved providers Hall) as (needs & Hpromise & Hloads).
  assert (Htrue : In true needs).
  { apply Exists_exists in Hchange. destruct Hchange as (p & Hp & Hload).
    assert (Hin : In (Resolved true)
                    (map BibliographyDataProvider.load providers))
      by (rewrite <- Hload; now apply in_map).
    rewrite Hloads in Hin. apply in_map_iff in Hin.
    destruct Hin as (b & [= ->] & Hb). exact Hb. }
  unfold load. rewrite Hpromise, (reduce_or_some_true needs Htrue).
  reflexivity.
Qed.

(** X16: A load in which some provider load rejects is rejected and writes no
    field: merged set, index and writability are those before the call. *)
Theorem load_rejection_keeps_state
  (providers : list BibliographyDataProvider.t) (this : BibliographyManager) :
  Exists (fun p => exists e, BibliographyDataProvider.load p = Rejected e)
    providers ->
  fst (load providers this) = this /\
  exists e, snd (load providers this) = Rejected e.
Proof.
  intros Hrejected.
  destruct (Promise_all_rejects (map BibliographyDataProvider.load providers))
    as [e He].
  { apply Exists_exists in Hrejected. destruct Hrejected as (p & Hp & Hload).
    apply Exists_exists. exists (BibliographyDataProvider.load p).
    split; [now apply in_map | exact Hload]. }
  unfold load. rewrite He. split; [reflexivity | now exists e].
Qed.

(** X17: A load in which no provider reports a change still decides visibility
    anew: afterwards [allSources] is the merged set of before the call, whole
    if the providers' files now allow writes and restricted to the local
    records if they do not. *)
Theorem load_without_change_regates_visibility
  (kLocalBiliographyProviderKey : string)
  (providers : list BibliographyDataProvider.t) (this : BibliographyManager) :
  Forall (fun p => BibliographyDataProvider.load p = Resolved false) providers ->
  allSources kLocalBiliographyProviderKey (fst (load providers this)) =
  match sources this with
  | Some srcs =>
      if shouldAllowWrites providers then srcs
      else
        filter (fun source => providerKey source =? kLocalBiliographyProviderKey)
          srcs
  | None => []
  end.
Proof.
  intros Hnone.
  assert (Hloads : Forall (fun p => p = Resolved false)
                     (map BibliographyDataProvider.load providers))
    by now apply Forall_map.
  rewrite allSources_of_sources. unfold load.
  rewrite (Promise_all_resolved _ false Hloads).
  assert (Hfalse : Forall (fun x => x = false)
                     (repeat false
                        (List.length
                           (map BibliographyDataProvider.load providers)))).
  { apply Forall_forall. intros x Hx. now apply repeat_spec in Hx. }
  destruct (reduce_or_all_false _ Hfalse) as [-> | ->]; simpl;
    unfold isWritable; simpl; now rewrite orb_false_r.
Qed.

(** X18: In every state reached from the constructed one, the index and the
    merged set are of the same generation: either there is neither, or the
    index is the one [updateIndex] builds on the current merged set. *)
Theorem reachable_index_is_built_on_sources (this : BibliographyManager) :
  reachable this ->
  match fuse this with
  | Some fz =>
      sources this = Some (Fuse.docs fz) /\
      Fuse.options fz = {| Fuse.keys := map Fuse.name kFields |} /\
      Fuse.index fz =
        Fuse.createIndex (map Fuse.name kFields) (Fuse.docs fz)
  | None => sources this = None
  end.
Proof.
  induction 1 as [| providers this _ IH]; [reflexivity |].
  unfold load.
  destruct (Promise_all (map BibliographyDataProvider.load providers))
    as [needs | e]; [| exact IH].
  destruct (reduce_or needs) as [[|] |]; simpl; [| exact IH | exact IH].
  repeat split.
Qed.

(** X19: In every state reached from the constructed one, as long as no load has
    stored a writability the manager is as constructed: a merged set or an
    index never exists without a writability decision. *)
Theorem reachable_without_writability_is_constructed
  (this : BibliographyManager) :
  reachable this ->
  writable this = None ->
  this = constructed.
Proof.
  induction 1 as [| providers this _ IH]; [reflexivity |].
  unfold load.
  destruct (Promise_all (map BibliographyDataProvider.load providers))
    as [needs | e]; [| exact IH].
  destruct (reduce_or needs) as [[|] |]; simpl; discriminate.
Qed.

(** ** The further properties, on the scenario *)

Lemma remote_sources_hidden_when_not_writable_witness :
  sourcesForProvider Scenario.kLocal Scenario.readonly_state Scenario.kRemote
    = [] /\
  (forall C,
     sourcesForProviderCollection Scenario.kLocal Scenario.readonly_state
       Scenario.kRemote C = []).
Proof.
  apply (remote_sources_hidden_when_not_writable Scenario.kLocal
           Scenario.readonly_state Scenario.kRemote).
  - reflexivity.
  - discriminate.
Defined.

Lemma search_scope_is_sound_witness :
  Forall (fun r => providerKey r = Scenario.kRemote)
    (search Scenario.kLocal Scenario.fuse_search Scenario.twin_state
       (Some "A") (Some Scenario.kRemote) None) /\
  (forall C,
     C <> "" ->
     Forall (fun r => In C (collectionKeys r))
       (search Scenario.kLocal Scenario.fuse_search Scenario.twin_state
          (Some "A") (Some Scenario.kRemote) (Some C))).
Proof.
  apply (search_scope_is_sound Scenario.kLocal Scenario.fuse_search
           Scenario.twin_state (Some "A") None Scenario.kRemote).
  discriminate.
Defined.

Lemma search_returns_merged_records_witness :
  exists srcs,
    sources Scenario.writable_state = Some srcs /\ In Scenario.B1 srcs.
Proof.
  apply (search_returns_merged_records Scenario.kLocal Scenario.fuse_search
           Scenario.writable_state (Some "B") None None Scenario.B1).
  - apply pipeline_draws_from_docs.
  - apply reachable_load, reachable_constructed.
  - simpl. now left.
Defined.

Lemma search_ignores_collection_without_provider_witness :
  search Scenario.kLocal Scenario.fuse_search Scenario.writable_state
    (Some "B") (Some "") (Some "C2") =
  search Scenario.kLocal Scenario.fuse_search Scenario.writable_state
    (Some "B") None None.
Proof.
  apply (search_ignores_collection_without_provider Scenario.kLocal
           Scenario.fuse_search Scenario.writable_state (Some "B") (Some "")
           (Some "C2")).
  reflexivity.
Defined.

Lemma warningForProvider_without_provider_witness :
  warningForProvider Scenario.warning_providers (Some "mendeley") = None.
Proof.
  apply (warningForProvider_without_provider Scenario.warning_providers
           (Some "mendeley")).
  right. intros p [<- | [<- | []]]; discriminate.
Defined.

Lemma warningForProvider_implies_warning_witness :
  exists w, warning Scenario.warning_providers = Some w /\ w <> "".
Proof.
  apply (warningForProvider_implies_warning Scenario.warning_providers
           (Some Scenario.kRemote)).
  reflexivity.
Defined.

Lemma generateBibLaTeX_without_provider_witness :
  generateBibLaTeX (fun _ _ => Some "@misc{A1}") Scenario.writable_providers
    "A1" (csl Scenario.A1) (Some "mendeley") =
  Resolved (Some "@misc{A1}").
Proof.
  apply (generateBibLaTeX_without_provider (fun _ _ => Some "@misc{A1}")
           Scenario.writable_providers "A1" (csl Scenario.A1)
           (Some "mendeley")).
  intros k [= <-]. reflexivity.
Defined.

Lemma generateBibLaTeX_named_provider_answers_witness :
  exists before p after,
    Scenario.writable_providers = (before ++ p :: after)%list /\
    Forall (fun q => BibliographyDataProvider.key q <> Scenario.kRemote)
      before /\
    BibliographyDataProvider.key p = Scenario.kRemote /\
    BibliographyDataProvider.name p = "Zotero" /\
    generateBibLaTeX (fun _ _ => Some "@misc{B1}") Scenario.writable_providers
      "B1" (csl Scenario.B1) (Some Scenario.kRemote) =
    BibliographyDataProvider.generateBibLaTeX p "B1" (csl Scenario.B1).
Proof.
  apply (generateBibLaTeX_named_provider_answers
           (fun _ _ => Some "@misc{B1}") Scenario.writable_providers "B1"
           (csl Scenario.B1) Scenario.kRemote "Zotero").
  reflexivity.
Defined.

Lemma load_with_change_replaces_witness :
  load Scenario.twin_providers Scenario.readonly_state =
  load Scenario.twin_providers constructed /\
  sources (fst (load Scenario.twin_providers Scenario.readonly_state)) =
  Some [Scenario.A1; Scenario.A3; Scenario.B3; Scenario.B1].
Proof.
  assert (Hall : Forall
            (fun p => exists b, BibliographyDataProvider.load p = Resolved b)
            Scenario.twin_providers)
    by (repeat constructor; now exists true).
  assert (Hchange : Exists
            (fun p => BibliographyDataProvider.load p = Resolved true)
            Scenario.twin_providers)
    by (now left).
  rewrite (load_with_change_replaces Scenario.twin_providers
             Scenario.readonly_state Hall Hchange).
  rewrite (load_with_change_replaces Scenario.twin_providers
             constructed Hall Hchange).
  split; reflexivity.
Defined.

Lemma load_rejection_keeps_state_witness :
  fst (load Scenario.failing_providers Scenario.writable_state) =
  Scenario.writable_state /\
  exists e,
    snd (load Scenario.failing_providers Scenario.writable_state) = Rejected e.
Proof.
  apply (load_rejection_keeps_state Scenario.failing_providers
           Scenario.writable_state).
  right. left. now exists "network".
Defined.

Lemma reachable_index_is_built_on_sources_witness :
  match fuse Scenario.twin_state with
  | Some fz =>
      sources Scenario.twin_state = Some (Fuse.docs fz) /\
      Fuse.options fz = {| Fuse.keys := map Fuse.name kFields |} /\
      Fuse.index fz =
        Fuse.createIndex (map Fuse.name kFields) (Fuse.docs fz)
  | None => sources Scenario.twin_state = None
  end.
Proof.
  apply (reachable_index_is_built_on_sources Scenario.twin_state).
  apply reachable_load, reachable_constructed.
Defined.

Lemma reachable_without_writability_is_constructed_witness :
  fst (load Scenario.failing_providers constructed) = constructed.
Proof.
  apply (reachable_without_writability_is_constructed
           (fst (load Scenario.failing_providers constructed))).
  - apply reachable_load, reachable_constructed.
  - reflexivity.
Defined.

Lemma load_without_change_regates_visibility_witness :
  allSources Scenario.kLocal Scenario.writable_state
    = [Scenario.A1; Scenario.B1] /\
  allSources Scenario.kLocal
    (fst (load Scenario.locked_providers Scenario.writable_state))
    = [Scenario.A1].
Proof.
  split; [reflexivity |].
  rewrite (load_without_change_regates_visibility Scenario.kLocal
             Scenario.locked_providers Scenario.writable_state).
  - reflexivity.
  - repeat constructor.
Defined.
